(** * The k6 MCP server: process runner and tool facade

    A shallow embedding of [src/k6_server.py].  The module defines one
    coroutine, [run_k6_script], and two tools registered on the MCP
    server, [execute_k6_test] and [execute_k6_test_with_options], which
    forward to it.

    [run_k6_script] talks to its surroundings in five ways: it resolves
    paths ([Path(...).resolve()]), asks whether a path exists, reads the
    environment ([os.getenv]), writes diagnostic lines ([print]) and
    launches a child process ([asyncio.create_subprocess_exec] followed by
    [communicate]).  Each of these is a field of the record [World]; what
    the program does with the answers is written out below, statement by
    statement.  Every one of these operations may raise, so a computation
    is a function from the events seen so far to an outcome (a value or a
    raised exception) and the extended list of events.

    Conventions of the model.
    - A Python [str] is a [string] holding the UTF-8 encoding of the text,
      so [bytes.decode()] checks the encoding and keeps the bytes.
    - A resolved path is POSIX: the list of its components below the root.
    - An [int] is a [Z].  [str(vus)] raises [ValueError] when the count
      has more digits than the interpreter converts ([World] holds the
      limit, 4300 by default, 0 for none).  The exit code of a child and
      the numbers of the menu are small, and their [str] is total.
    - An oracle of [World] gives the completed outcome of an awaited
      operation; a child that never exits has no outcome and no run here. *)

From Stdlib Require Import ZArith String Ascii List Bool Strings.Byte.
From Stdlib Require Import DecimalString DecimalZ DecimalPos Lia.
Import ListNotations.

Open Scope string_scope.
Open Scope list_scope.

(** ** Python values, exceptions and outcomes *)

Module Py.

Definition bytes : Type := list byte.

(** The line feed of the literal ["\n"]. *)
Definition nl : string := String (ascii_of_nat 10) EmptyString.

(** The classes of the exceptions the operations used here can raise.  The
    first four derive from [BaseException] only; the others derive from
    [Exception]. *)
Inductive ExcClass : Type :=
| KeyboardInterrupt
| SystemExit
| GeneratorExit
| CancelledError
| OSError
| FileNotFoundError
| PermissionError
| RuntimeError
| ValueError
| TypeError
| UnicodeDecodeError
| UnicodeEncodeError.

(** [isinstance(e, Exception)], by class. *)
Definition is_Exception (c : ExcClass) : bool :=
  match c with
  | KeyboardInterrupt | SystemExit | GeneratorExit | CancelledError => false
  | _ => true
  end.

(** A raised exception: its class and the text [str(e)]. *)
Record PyExc : Type := mkExc { exc_class : ExcClass; exc_str : string }.

Inductive Outcome (A : Type) : Type :=
| Ret (a : A)
| Raise (e : PyExc).
Arguments Ret {A} a.
Arguments Raise {A} e.

(** [str(n)] for an [int]. *)
Definition str_int (n : Z) : string := NilZero.string_of_int (Z.to_int n).

(** The number of decimal digits of an [int], its sign apart. *)
Definition digits (n : Z) : nat := String.length (str_int (Z.abs n)).

(** Whether [str(n)] is refused under [sys.get_int_max_str_digits()]. *)
Definition over_limit (max_digits : nat) (n : Z) : bool :=
  Nat.ltb 0 max_digits && Nat.ltb max_digits (digits n).

(** [str(n)] as the interpreter does it for an [int] of any size. *)
Definition py_str (max_digits : nat) (n : Z) : Outcome string :=
  if over_limit max_digits n
  then Raise (mkExc ValueError
                ("Exceeds the limit (" ++ str_int (Z.of_nat max_digits)
                   ++ " digits) for integer string conversion; "
                   ++ "use sys.set_int_max_str_digits() to increase the limit"))
  else Ret (str_int n).

(** [sep.join(xs)]. *)
Definition join (sep : string) (xs : list string) : string :=
  String.concat sep xs.

(** *** Strict UTF-8, the codec of [bytes.decode()] *)

Definition in_range (lo hi : N) (b : byte) : bool :=
  (N.leb lo (Byte.to_N b) && N.leb (Byte.to_N b) hi)%bool.

Definition is_continuation (b : byte) : bool := in_range 128 191 b.

(** Well-formed UTF-8: shortest forms only, no surrogates, nothing above
    U+10FFFF. *)
Fixpoint utf8_valid (bs : bytes) : bool :=
  match bs with
  | [] => true
  | b0 :: r0 =>
    if in_range 0 127 b0 then utf8_valid r0
    else if in_range 194 223 b0 then
      match r0 with
      | b1 :: r1 => is_continuation b1 && utf8_valid r1
      | _ => false
      end
    else if in_range 224 239 b0 then
      match r0 with
      | b1 :: b2 :: r2 =>
        (if in_range 224 224 b0 then in_range 160 191 b1
         else if in_range 237 237 b0 then in_range 128 159 b1
         else is_continuation b1)
        && is_continuation b2 && utf8_valid r2
      | _ => false
      end
    else if in_range 240 244 b0 then
      match r0 with
      | b1 :: b2 :: b3 :: r3 =>
        (if in_range 240 240 b0 then in_range 144 191 b1
         else if in_range 244 244 b0 then in_range 128 143 b1
         else is_continuation b1)
        && is_continuation b2 && is_continuation b3 && utf8_valid r3
      | _ => false
      end
    else false
  end.

(** [b.decode()]: UTF-8, errors strict.  [error_text] is the text the
    interpreter attaches to the [UnicodeDecodeError]. *)
Definition bytes_decode (error_text : bytes -> string) (b : bytes)
  : Outcome string :=
  if utf8_valid b then Ret (string_of_list_byte b)
  else Raise (mkExc UnicodeDecodeError (error_text b)).

End Py.
Import Py.

(** ** pathlib: resolved paths, [name] and [suffix] *)

Module Pathlib.

(** An absolute path: its components below the root, outermost first. *)
Definition PosixPath : Type := list string.

(** [str(p)]. *)
Definition path_str (p : PosixPath) : string :=
  "/" ++ String.concat "/" p.

(** [p.name]: the final component, empty for the root. *)
Definition path_name (p : PosixPath) : string := last p EmptyString.

Fixpoint rfind_from (c : ascii) (s : string) (i found : Z) : Z :=
  match s with
  | EmptyString => found
  | String a s' =>
    rfind_from c s' (i + 1)%Z (if Ascii.eqb a c then i else found)
  end.

(** [s.rfind(c)]: the highest index of [c] in [s], or -1. *)
Definition rfind (c : ascii) (s : string) : Z := rfind_from c s 0%Z (-1)%Z.

(** [p.suffix]:
<<
    name = self.name
    i = name.rfind('.')
    if 0 < i < len(name) - 1: return name[i:]
    else: return ''
>> *)
Definition suffix (p : PosixPath) : string :=
  let name := path_name p in
  let i := rfind "." name in
  if ((0 <? i)%Z && (i <? Z.of_nat (String.length name) - 1)%Z)%bool
  then substring (Z.to_nat i) (String.length name - Z.to_nat i) name
  else EmptyString.

Inductive FileKind : Type := RegularFile | Directory | OtherFile.

End Pathlib.
Import Pathlib.

(** ** The surroundings of a run *)

(** The child process handle.  [communicate] is the outcome of awaiting
    [process.communicate()], the captured (stdout, stderr); [returncode]
    is the attribute read once that has returned. *)
Record Process : Type := mkProcess {
  communicate : Outcome (bytes * bytes);
  returncode : Z
}.

Record World : Type := mkWorld {
  (** [Path(s).resolve()] *)
  path_resolve : string -> Outcome PosixPath;
  (** what [stat] finds at a resolved path; [None] when nothing is there *)
  stat_kind : PosixPath -> Outcome (option FileKind);
  (** [os.environ], after [load_dotenv()] *)
  environ : string -> option string;
  (** writing one line to [sys.stdout] *)
  stdout_write : string -> Outcome unit;
  (** awaiting [asyncio.create_subprocess_exec] on [cmd], both streams piped *)
  create_subprocess_exec : list string -> Outcome Process;
  (** the text of a [UnicodeDecodeError] *)
  decode_error_text : bytes -> string;
  (** [sys.get_int_max_str_digits()]: 0 when there is no limit *)
  int_max_str_digits : nat
}.

(** [p.exists()]: true for whatever [stat] finds, file or not.  A [stat]
    failure that pathlib reads as absence is [Ret None]; one it does not
    is raised. *)
Definition path_exists (w : World) (p : PosixPath) : Outcome bool :=
  match stat_kind w p with
  | Ret (Some _) => Ret true
  | Ret None => Ret false
  | Raise e => Raise e
  end.

(** [os.getenv(name, default)]. *)
Definition os_getenv (w : World) (name default : string) : string :=
  match environ w name with
  | Some v => v
  | None => default
  end.

(** ** Computations *)

(** What a run does that can be seen from outside. *)
Inductive Event : Type :=
| Printed (line : string)
| Launch (cmd : list string).

Definition Trace : Type := list Event.

Definition M (A : Type) : Type := Trace -> Outcome A * Trace.

Definition ret {A : Type} (a : A) : M A := fun tr => (Ret a, tr).

Definition bind {A B : Type} (m : M A) (k : A -> M B) : M B :=
  fun tr =>
    match m tr with
    | (Ret a, tr') => k a tr'
    | (Raise e, tr') => (Raise e, tr')
    end.

Notation "x <- m ;; k" := (bind m (fun x => k))
  (at level 61, m at next level, right associativity).
Notation "m ;;; k" := (bind m (fun _ => k))
  (at level 61, right associativity).

(** An operation of the world that leaves no event of its own. *)
Definition lift {A : Type} (o : Outcome A) : M A := fun tr => (o, tr).

(** [try: body / except Exception as e: handler(e)].  An exception whose
    class does not derive from [Exception] passes through. *)
Definition try_except_Exception {A : Type}
    (body : M A) (handler : PyExc -> M A) : M A :=
  fun tr =>
    match body tr with
    | (Ret a, tr') => (Ret a, tr')
    | (Raise e, tr') =>
      if is_Exception (exc_class e) then handler e tr' else (Raise e, tr')
    end.

(** [print(line)]. *)
Definition print (w : World) (line : string) : M unit :=
  fun tr =>
    match stdout_write w line with
    | Ret _ => (Ret tt, tr ++ [Printed line])
    | Raise e => (Raise e, tr)
    end.

(** [await asyncio.create_subprocess_exec] on the unpacked [cmd]: the
    call is an event whether or not a child comes of it. *)
Definition spawn (w : World) (cmd : list string) : M Process :=
  fun tr => (create_subprocess_exec w cmd, tr ++ [Launch cmd]).

(** ** [run_k6_script] *)

(** Lines 41-45: the list [cmd] after its four [extend]s, for a count
    that [str] converts. *)
Definition build_cmd (bin_path : PosixPath) (duration : string) (vus : Z)
    (script_file_path : PosixPath) : list string :=
  [path_str bin_path] ++ ["run"] ++ ["-d"; duration]
    ++ ["-u"; str_int vus] ++ [path_str script_file_path].

(** Lines 57-70: from [communicate] to the [return] after the child. *)
Definition collect_output (w : World) (process : Process) : M string :=
  out <- lift (communicate process) ;;
  let '(stdout_bytes, stderr_bytes) := out in
  stdout <- lift (bytes_decode (decode_error_text w) stdout_bytes) ;;
  stderr <- lift (bytes_decode (decode_error_text w) stderr_bytes) ;;
  print w (nl ++ "Command output:") ;;;
  print w ("Return code: " ++ str_int (returncode process)) ;;;
  print w ("Stdout: " ++ stdout) ;;;
  print w ("Stderr: " ++ stderr) ;;;
  if negb (returncode process =? 0)%Z
  then ret ("Error executing k6 test:" ++ nl ++ stderr)%string
  else ret stdout.

(** Lines 35-55: from reading [K6_BIN] to the launch; then the above. *)
Definition launch_k6 (w : World) (script_file_path : PosixPath)
    (duration : string) (vus : Z) : M string :=
  let k6_bin := os_getenv w "K6_BIN" "k6" in
  print w ("k6 binary path: " ++ k6_bin) ;;;
  bin_path <- lift (path_resolve w k6_bin) ;;
  vus_text <- lift (py_str (int_max_str_digits w) vus) ;;
  let cmd := [path_str bin_path] ++ ["run"] ++ ["-d"; duration]
               ++ ["-u"; vus_text] ++ [path_str script_file_path] in
  print w ("Executing command: " ++ join " " cmd) ;;;
  process <- spawn w cmd ;;
  collect_output w process.

(** Lines 25-70: the body of the [try]. *)
Definition run_k6_script_try (w : World) (script_file duration : string)
    (vus : Z) : M string :=
  script_file_path <- lift (path_resolve w script_file) ;;
  found <- lift (path_exists w script_file_path) ;;
  if negb found
  then ret ("Error: Script file not found: " ++ script_file)%string
  else if negb (suffix script_file_path =? ".js")
  then ret ("Error: Invalid file type. Expected .js file: " ++ script_file)%string
  else launch_k6 w script_file_path duration vus.

(** Lines 72-73: [except Exception as e]. *)
Definition unexpected_error (e : PyExc) : M string :=
  ret ("Unexpected error: " ++ exc_str e)%string.

Definition run_k6_script (w : World) (script_file duration : string)
    (vus : Z) : M string :=
  try_except_Exception
    (run_k6_script_try w script_file duration vus)
    unexpected_error.

(** ** The two tools *)

(** A parameter with a default: [None] when the caller leaves it out. *)
Definition with_default {A : Type} (default : A) (arg : option A) : A :=
  match arg with
  | Some a => a
  | None => default
  end.

(** [execute_k6_test(script_file, duration="30s", vus=10)]. *)
Definition execute_k6_test (w : World) (script_file : string)
    (duration : option string) (vus : option Z) : M string :=
  run_k6_script w script_file
    (with_default "30s" duration) (with_default 10%Z vus).

(** [execute_k6_test_with_options(script_file, duration, vus)]. *)
Definition execute_k6_test_with_options (w : World)
    (script_file duration : string) (vus : Z) : M string :=
  run_k6_script w script_file duration vus.

(** ** A host without symbolic links

    A small operating system to run the program on: a working directory,
    a table of files, an environment and the programs installed.  Without
    symbolic links [resolve] is lexical: a relative path is read from the
    working directory, [.] and empty components are dropped and [..] steps
    up.  A program is started the way [execvp] does it: a name with a
    slash is used as it stands, a bare name is searched for along [PATH]. *)

Module Host.

Fixpoint split_on (c : ascii) (s : string) : list string :=
  match s with
  | EmptyString => [EmptyString]
  | String a s' =>
    if Ascii.eqb a c then EmptyString :: split_on c s'
    else match split_on c s' with
         | [] => [String a EmptyString]
         | h :: t => String a h :: t
         end
  end.

Definition is_absolute (s : string) : bool :=
  match s with
  | String "/" _ => true
  | _ => false
  end.

Definition has_slash (s : string) : bool :=
  existsb (Ascii.eqb "/") (list_ascii_of_string s).

(** One component applied to the path walked so far (innermost first). *)
Definition step (walked : list string) (part : string) : list string :=
  if (part =? EmptyString) || (part =? ".") then walked
  else if part =? ".." then tl walked
  else part :: walked.

Definition lexical_resolve (cwd : PosixPath) (s : string) : PosixPath :=
  rev (fold_left step (split_on "/" s)
         (if is_absolute s then [] else rev cwd)).

Fixpoint lookup {A : Type} (p : PosixPath) (table : list (PosixPath * A))
  : option A :=
  match table with
  | [] => None
  | (q, a) :: rest => if path_str q =? path_str p then Some a else lookup p rest
  end.

Fixpoint lookup_env (name : string) (env : list (string * string))
  : option string :=
  match env with
  | [] => None
  | (n, v) :: rest => if n =? name then Some v else lookup_env name rest
  end.

Record Host : Type := mkHost {
  host_cwd : PosixPath;
  host_files : list (PosixPath * FileKind);
  host_env : list (string * string);
  host_programs : list (PosixPath * Process);
  (** whether [sys.stdout] encodes as ASCII rather than UTF-8 *)
  host_stdout_ascii : bool;
  host_decode_text : bytes -> string;
  host_encode_text : string -> string
}.

(** The directories of [PATH], in order. *)
Definition search_dirs (h : Host) : list string :=
  match lookup_env "PATH" (host_env h) with
  | Some dirs => split_on ":" dirs
  | None => []
  end.

(** Where a program name leads: itself if it has a slash, else the first
    directory of [PATH] that holds a program of that name. *)
Definition candidates (h : Host) (program : string) : list PosixPath :=
  if has_slash program then [lexical_resolve (host_cwd h) program]
  else map (fun d => lexical_resolve (host_cwd h) (d ++ "/" ++ program))
           (search_dirs h).

Fixpoint first_program (h : Host) (ps : list PosixPath)
  : option (PosixPath * Process) :=
  match ps with
  | [] => None
  | p :: rest =>
    match lookup p (host_programs h) with
    | Some pr => Some (p, pr)
    | None => first_program h rest
    end
  end.

(** The executable a program name denotes on this host, if any. *)
Definition which (h : Host) (program : string) : option PosixPath :=
  option_map fst (first_program h (candidates h program)).

Definition exec (h : Host) (cmd : list string) : Outcome Process :=
  match cmd with
  | [] =>
    Raise (mkExc TypeError
             "create_subprocess_exec() missing 1 required positional argument: 'program'")
  | program :: _ =>
    match first_program h (candidates h program) with
    | Some (_, pr) => Ret pr
    | None =>
      Raise (mkExc FileNotFoundError
               ("[Errno 2] No such file or directory: '" ++ program ++ "'"))
    end
  end.

Definition is_ascii (s : string) : bool :=
  forallb (fun a => Nat.ltb (nat_of_ascii a) 128) (list_ascii_of_string s).

(** A line goes out unless the stream cannot encode it. *)
Definition write_line (h : Host) (line : string) : Outcome unit :=
  if host_stdout_ascii h && negb (is_ascii line)
  then Raise (mkExc UnicodeEncodeError (host_encode_text h line))
  else Ret tt.

Definition world_of (h : Host) : World :=
  {| path_resolve := fun s => Ret (lexical_resolve (host_cwd h) s);
     stat_kind := fun p => Ret (lookup p (host_files h));
     environ := fun name => lookup_env name (host_env h);
     stdout_write := write_line h;
     create_subprocess_exec := exec h;
     decode_error_text := host_decode_text h;
     int_max_str_digits := 4300 |}.

(** *** The hosts used below *)

Definition files : list (PosixPath * FileKind) :=
  [ (["srv"; "app"], Directory);
    (["srv"; "app"; "test.js"], RegularFile);
    (["srv"; "app"; "notes.txt"], RegularFile);
    (["srv"; "app"; "LOAD.JS"], RegularFile);
    (["srv"; "app"; ".js"], RegularFile);
    (["srv"; "app"; "scenarios.js"], Directory);
    (["srv"; "app"; "suite"], Directory);
    (["srv"; "app"; "suite"; ".js"], Directory);
    (["tmp"; "test.js"], RegularFile);
    (["usr"; "bin"; "k6"], RegularFile) ].

Definition env_with_k6_bin : list (string * string) :=
  [ ("PATH", "/usr/local/bin:/usr/bin"); ("K6_BIN", "/usr/bin/k6") ].

Definition env_without_k6_bin : list (string * string) :=
  [ ("PATH", "/usr/local/bin:/usr/bin") ].

(** The text for a stream that opens with the byte 0xff, the only
    malformed stream below. *)
Definition text_for_xff (_ : bytes) : string :=
  "'utf-8' codec can't decode byte 0xff in position 0: invalid start byte".

(** The text for a line whose first character outside ASCII is the check
    mark U+2713 at index 8, the only such line below. *)
Definition text_for_check_mark (_ : string) : string :=
  "'ascii' codec can't encode character '\u2713' in position 8: ordinal not in range(128)".

(** A host whose k6, installed as [/usr/bin/k6], behaves as [k6]. *)
Definition host_with (k6 : Process) (env : list (string * string))
    (ascii_stdout : bool) : Host :=
  {| host_cwd := ["srv"; "app"];
     host_files := files;
     host_env := env;
     host_programs := [ (["usr"; "bin"; "k6"], k6) ];
     host_stdout_ascii := ascii_stdout;
     host_decode_text := text_for_xff;
     host_encode_text := text_for_check_mark |}.

Definition ok_bytes : bytes := list_byte_of_string "OK".
Definition boom_bytes : bytes := list_byte_of_string "BOOM".
Definition noise_bytes : bytes := list_byte_of_string "running...".

(** Exits 0 having written "OK" to stdout. *)
Definition k6_ok : Process := mkProcess (Ret (ok_bytes, [])) 0.
(** Exits 1 having written "BOOM" to stderr. *)
Definition k6_boom : Process := mkProcess (Ret (noise_bytes, boom_bytes)) 1.
(** Exits 0, "OK" on stdout, one byte 0xff on stderr. *)
Definition k6_ok_bad_stderr : Process := mkProcess (Ret (ok_bytes, [xff])) 0.
(** Exits 1, one byte 0xff on stdout, "BOOM" on stderr. *)
Definition k6_boom_bad_stdout : Process :=
  mkProcess (Ret ([xff], boom_bytes)) 1.
(** The task is cancelled while it awaits the child. *)
Definition k6_cancelled : Process :=
  mkProcess (Raise (mkExc CancelledError EmptyString)) 0.

(** The check mark, a blank and "passed", in UTF-8. *)
Definition check_passed_bytes : bytes :=
  [xe2; x9c; x93] ++ list_byte_of_string " passed".
(** Exits 0 having written the check-mark line to stdout. *)
Definition k6_ok_check_mark : Process :=
  mkProcess (Ret (check_passed_bytes, [])) 0.
(** Exits 1 having written the check-mark line to stderr. *)
Definition k6_boom_check_mark : Process :=
  mkProcess (Ret (noise_bytes, check_passed_bytes)) 1.

Definition host_ok : Host := host_with k6_ok env_with_k6_bin false.
Definition host_boom : Host := host_with k6_boom env_with_k6_bin false.
Definition host_bad_stderr : Host :=
  host_with k6_ok_bad_stderr env_with_k6_bin false.
Definition host_bad_stdout : Host :=
  host_with k6_boom_bad_stdout env_with_k6_bin false.
Definition host_cancelled : Host :=
  host_with k6_cancelled env_with_k6_bin false.
Definition host_default_bin : Host :=
  host_with k6_ok env_without_k6_bin false.
Definition host_ascii_ok : Host :=
  host_with k6_ok_check_mark env_with_k6_bin true.
Definition host_ascii_boom : Host :=
  host_with k6_boom_check_mark env_with_k6_bin true.

End Host.


(** ** [main.py]: choosing the model and starting the server

    [main.py] reads the command line, the environment and, if need be, the
    terminal, stores the model chosen in [SELECTED_MODEL] and starts the
    server.  What the interpreter and the terminal supply is the record
    [Runtime]; the environment and the stream behind [print] are those of
    [World].  A run leaves a list of actions. *)

Module Main.

(** Line 14. *)
Definition MODELS : list string := ["gpt-4"; "gpt-3.5-turbo"; "claude-3"].

Record Runtime : Type := mkRuntime {
  (** [parser.parse_args().model]: [None] without [--model] *)
  parse_args_model : Outcome (option string);
  (** [input(prompt)] *)
  input : string -> Outcome string;
  (** [s.strip()] *)
  str_strip : string -> string;
  (** [int(s)]; [None] stands for the [ValueError] *)
  int_of_str : string -> option Z;
  (** [mcp.run(transport="stdio")] *)
  mcp_run : Outcome unit
}.

Inductive Action : Type :=
| Say (line : string)
| Ask (prompt : string)
| SetEnv (name value : string)
| Serve.

Definition Log : Type := list Action.

Definition P (A : Type) : Type := Log -> Outcome A * Log.

Definition done {A : Type} (a : A) : P A := fun log => (Ret a, log).

Definition andthen {A B : Type} (m : P A) (k : A -> P B) : P B :=
  fun log =>
    match m log with
    | (Ret a, log') => k a log'
    | (Raise e, log') => (Raise e, log')
    end.

Notation "x <~ m ;; k" := (andthen m (fun x => k))
  (at level 61, m at next level, right associativity).
Notation "m ;;> k" := (andthen m (fun _ => k))
  (at level 61, right associativity).

(** [print(line)]. *)
Definition say (w : World) (line : string) : P unit :=
  fun log =>
    match stdout_write w line with
    | Ret _ => (Ret tt, log ++ [Say line])
    | Raise e => (Raise e, log)
    end.

(** [input(prompt)]. *)
Definition ask (rt : Runtime) (prompt : string) : P string :=
  fun log => (input rt prompt, log ++ [Ask prompt]).

(** [os.environ[name] = value]. *)
Definition set_env (name value : string) : P unit :=
  fun log => (Ret tt, log ++ [SetEnv name value]).

(** [mcp.run(transport="stdio")]. *)
Definition serve (rt : Runtime) : P unit :=
  fun log => (mcp_run rt, log ++ [Serve]).

(** The truth value of a [str]. *)
Definition truthy (s : string) : bool := negb (s =? EmptyString).

(** [a or b] for two values that are [None] or a [str]. *)
Definition py_or (a b : option string) : option string :=
  match a with
  | Some s => if truthy s then a else b
  | None => b
  end.

(** [x in xs]. *)
Definition member (x : string) (xs : list string) : bool :=
  existsb (String.eqb x) xs.

(** [xs[i]]: a negative index counts from the end; [None] stands for the
    [IndexError]. *)
Definition getitem {A : Type} (xs : list A) (i : Z) : option A :=
  let n := Z.of_nat (List.length xs) in
  let j := if (i <? 0)%Z then (i + n)%Z else i in
  if ((j <? 0) || (n <=? j))%Z then None else nth_error xs (Z.to_nat j).

(** [enumerate(xs, start=start)]. *)
Fixpoint enumerate {A : Type} (start : Z) (xs : list A) : list (Z * A) :=
  match xs with
  | [] => []
  | x :: rest => (start, x) :: enumerate (start + 1)%Z rest
  end.

(** [for x in xs: body(x)]. *)
Fixpoint for_each {A : Type} (xs : list A) (body : A -> P unit) : P unit :=
  match xs with
  | [] => done tt
  | x :: rest => body x ;;> for_each rest body
  end.

(** [MODELS[0]]. *)
Definition first_model : string := nth 0 MODELS EmptyString.

(** Line 30, the expression under [try]:
    [MODELS[int(choice) - 1] if choice else MODELS[0]].  [None] when it
    raises, which it does with [ValueError] or [IndexError] only. *)
Definition selection (rt : Runtime) (choice : string) : option string :=
  if truthy choice
  then match int_of_str rt choice with
       | Some n => getitem MODELS (n - 1)
       | None => None
       end
  else getitem MODELS 0.

(** Lines 17-34. *)
Definition choose_model (rt : Runtime) (w : World) : P string :=
  say w "Select the LLM model to use:" ;;>
  for_each (enumerate 1 MODELS)
    (fun im => say w (str_int (fst im) ++ ". " ++ snd im)) ;;>
  line <~ ask rt "Enter the number of the model [1]: " ;;
  let choice := str_strip rt line in
  match selection rt choice with
  | Some chosen => done chosen
  | None =>
    say w "Invalid choice, defaulting to gpt-4" ;;>
    done first_model
  end.

(** Lines 37-57. *)
Definition main (rt : Runtime) (w : World) : P unit :=
  args_model <~ (fun log => (parse_args_model rt, log)) ;;
  let model := py_or args_model (environ w "SELECTED_MODEL") in
  model <~ match model with
           | Some m =>
             if truthy m && negb (member m MODELS)
             then say w ("Invalid model '" ++ m ++ "', defaulting to "
                           ++ first_model) ;;>
                  done (Some first_model)
             else done model
           | None => done model
           end ;;
  model <~ match model with
           | Some m => if negb (truthy m) then choose_model rt w else done m
           | None => choose_model rt w
           end ;;
  set_env "SELECTED_MODEL" model ;;>
  say w ("Using model: " ++ model) ;;>
  serve rt.

(** Lines 55-57, the last three steps of [main]. *)
Definition finish (rt : Runtime) (w : World) (model : string) : P unit :=
  set_env "SELECTED_MODEL" model ;;>
  say w ("Using model: " ++ model) ;;>
  serve rt.

(** The environment once the assignments of a log have been made. *)
Fixpoint env_after (env : string -> option string) (log : Log)
  : string -> option string :=
  match log with
  | [] => env
  | SetEnv name value :: rest =>
    env_after (fun n => if n =? name then Some value else env n) rest
  | _ :: rest => env_after env rest
  end.

(** The assignments of a log, in order. *)
Fixpoint assignments (log : Log) : list (string * string) :=
  match log with
  | [] => []
  | SetEnv name value :: rest => (name, value) :: assignments rest
  | _ :: rest => assignments rest
  end.

(** The prompts of a log, in order. *)
Fixpoint prompts (log : Log) : list string :=
  match log with
  | [] => []
  | Ask prompt :: rest => prompt :: prompts rest
  | _ :: rest => prompts rest
  end.

(** Writing a line and asking a question, as against assigning a variable
    and starting the server. *)
Definition talk (a : Action) : bool :=
  match a with
  | Say _ | Ask _ => true
  | SetEnv _ _ | Serve => false
  end.

(** A computation that only talks. *)
Definition calm {A : Type} (m : P A) : Prop :=
  forall log,
    exists said, snd (m log) = log ++ said /\ forallb talk said = true.

(** A log that is talk, followed at most by the assignment of one of
    [MODELS] to [SELECTED_MODEL], the line that tells of it and the start
    of the server. *)
Definition settled (log : Log) : Prop :=
  exists said,
    forallb talk said = true
    /\ (log = said
        \/ exists m,
             In m MODELS
             /\ (log = said ++ [SetEnv "SELECTED_MODEL" m]
                 \/ log = said ++ [SetEnv "SELECTED_MODEL" m;
                                   Say ("Using model: " ++ m); Serve])).

(** Whether a model was named, by the command line or the environment. *)
Definition named (args_model env_model : option string) : bool :=
  match py_or args_model env_model with
  | Some m => truthy m
  | None => false
  end.

(** The lines of the menu. *)
Definition menu : list Action :=
  [ Say "Select the LLM model to use:";
    Say "1. gpt-4"; Say "2. gpt-3.5-turbo"; Say "3. claude-3";
    Ask "Enter the number of the model [1]: " ].

(** *** A terminal for the examples: ASCII text only *)

Definition is_space (a : ascii) : bool :=
  let n := nat_of_ascii a in
  (Nat.leb 9 n && Nat.leb n 13) || (Nat.leb 28 n && Nat.leb n 32).

Fixpoint lstrip (s : string) : string :=
  match s with
  | EmptyString => EmptyString
  | String a rest => if is_space a then lstrip rest else s
  end.

Definition reverse (s : string) : string :=
  string_of_list_ascii (rev (list_ascii_of_string s)).

Definition strip (s : string) : string :=
  reverse (lstrip (reverse (lstrip s))).

Definition digit (a : ascii) : option Z :=
  let n := nat_of_ascii a in
  if Nat.leb 48 n && Nat.leb n 57 then Some (Z.of_nat (n - 48)) else None.

(** Decimal digits, single underscores allowed between them. *)
Fixpoint digits (s : string) (acc : Z) (after_digit : bool) : option Z :=
  match s with
  | EmptyString => if after_digit then Some acc else None
  | String a rest =>
    match digit a with
    | Some d => digits rest (10 * acc + d)%Z true
    | None =>
      if Ascii.eqb a "_" && after_digit then digits rest acc false else None
    end
  end.

Definition parse_int (s : string) : option Z :=
  match strip s with
  | String "-" rest => option_map Z.opp (digits rest 0%Z false)
  | String "+" rest => digits rest 0%Z false
  | text => digits text 0%Z false
  end.

(** A terminal at which [--model] was given or not and the user types
    [answer] at the prompt. *)
Definition desk (args_model : option string) (answer : Outcome string)
  : Runtime :=
  {| parse_args_model := Ret args_model;
     input := fun _ => answer;
     str_strip := strip;
     int_of_str := parse_int;
     mcp_run := Ret tt |}.

End Main.

Definition has_nul (s : string) : bool :=
  existsb (Ascii.eqb (ascii_of_nat 0)) (list_ascii_of_string s).

(** The world with [sys.stdout] closed: every [print] raises. *)
Definition with_closed_stdout (w : World) : World :=
  {| path_resolve := path_resolve w;
     stat_kind := stat_kind w;
     environ := environ w;
     stdout_write :=
       fun _ => Raise (mkExc ValueError "I/O operation on closed file.");
     create_subprocess_exec := create_subprocess_exec w;
     decode_error_text := decode_error_text w;
     int_max_str_digits := int_max_str_digits w |}.

(** The world in which a path with a NUL character cannot be resolved. *)
Definition with_nul_check (w : World) : World :=
  {| path_resolve :=
       fun s => if has_nul s
                then Raise (mkExc ValueError "embedded null byte")
                else path_resolve w s;
     stat_kind := stat_kind w;
     environ := environ w;
     stdout_write := stdout_write w;
     create_subprocess_exec := create_subprocess_exec w;
     decode_error_text := decode_error_text w;
     int_max_str_digits := int_max_str_digits w |}.

(** The world with another environment.  The launch passes no [env=], so
    a child inherits the environment: what a launch gives in the new
    world is [launch], for the caller to say. *)
Definition with_environ (w : World) (env : string -> option string)
    (launch : list string -> Outcome Process) : World :=
  {| path_resolve := path_resolve w;
     stat_kind := stat_kind w;
     environ := env;
     stdout_write := stdout_write w;
     create_subprocess_exec := launch;
     decode_error_text := decode_error_text w;
     int_max_str_digits := int_max_str_digits w |}.

(** The world whose interpreter converts [max_digits] digits at most. *)
Definition with_digit_limit (w : World) (max_digits : nat) : World :=
  {| path_resolve := path_resolve w;
     stat_kind := stat_kind w;
     environ := environ w;
     stdout_write := stdout_write w;
     create_subprocess_exec := create_subprocess_exec w;
     decode_error_text := decode_error_text w;
     int_max_str_digits := max_digits |}.

(** ** Vocabulary of the statements *)

(** Every diagnostic line is accepted by [sys.stdout]. *)
Definition prints_ok (w : World) : Prop :=
  forall line, stdout_write w line = Ret tt.

(** [str(vus)] does not raise in this world. *)
Definition renders (w : World) (vus : Z) : Prop :=
  over_limit (int_max_str_digits w) vus = false.

(** [s] is the decimal numeral of [n]: it reads as a signed decimal, in
    normal form (no leading zero, no minus zero), whose value is [n]. *)
Definition is_decimal_of (s : string) (n : Z) : Prop :=
  exists d,
    NilZero.int_of_string s = Some d
    /\ Decimal.norm d = d
    /\ Z.of_int d = n.

(** The commands of the launches among some events, in order. *)
Fixpoint launches (tr : Trace) : list (list string) :=
  match tr with
  | [] => []
  | Launch cmd :: rest => cmd :: launches rest
  | Printed _ :: rest => launches rest
  end.

(** A computation that launches nothing. *)
Definition quiet {A : Type} (m : M A) : Prop :=
  forall tr, launches (snd (m tr)) = launches tr.

Definition ascii_lower (a : ascii) : ascii :=
  let n := nat_of_ascii a in
  if Nat.leb 65 n && Nat.leb n 90 then ascii_of_nat (n + 32) else a.

Fixpoint str_lower (s : string) : string :=
  match s with
  | EmptyString => EmptyString
  | String a s' => String (ascii_lower a) (str_lower s')
  end.

(** Two strings that are different but equal once letters are folded to
    lower case. *)
Definition differs_only_in_case (a b : string) : Prop :=
  a <> b /\ str_lower a = str_lower b.

(** [needle in s]. *)
Definition contains (needle s : string) : bool :=
  match index 0 needle s with
  | Some _ => true
  | None => false
  end.

Fixpoint has_char (c : ascii) (s : string) : bool :=
  match s with
  | EmptyString => false
  | String a s' => Ascii.eqb a c || has_char c s'
  end.


(** * Properties *)

Ltac unfold_run :=
  unfold run_k6_script, try_except_Exception, run_k6_script_try, launch_k6,
    collect_output, unexpected_error, bind, lift, ret, print, spawn.

(** ** The codec *)

Example utf8_valid_accepts :
  utf8_valid (list_byte_of_string "OK") = true
  /\ utf8_valid [xc3; xa9] = true
  /\ utf8_valid [xe2; x82; xac] = true
  /\ utf8_valid [xf0; x9f; x98; x80] = true
  /\ utf8_valid [] = true.
Proof. repeat split. Qed.

(** A lone continuation byte, an overlong form, a surrogate, a code point
    above U+10FFFF, a byte that starts nothing and a sequence cut short. *)
Example utf8_valid_rejects :
  utf8_valid [x80] = false
  /\ utf8_valid [xc0; x80] = false
  /\ utf8_valid [xe0; x80; x80] = false
  /\ utf8_valid [xed; xa0; x80] = false
  /\ utf8_valid [xf4; x90; x80; x80] = false
  /\ utf8_valid [xff] = false
  /\ utf8_valid [xe2; x82] = false.
Proof. repeat split. Qed.

(** Well-formed bytes decode to themselves. *)
Lemma bytes_decode_valid (text : bytes -> string) (b : bytes) :
  utf8_valid b = true -> bytes_decode text b = Ret (string_of_list_byte b).
Proof.
  intros H. unfold bytes_decode. now rewrite H.
Qed.

Lemma bytes_decode_invalid (text : bytes -> string) (b : bytes) :
  utf8_valid b = false ->
  bytes_decode text b = Raise (mkExc UnicodeDecodeError (text b)).
Proof.
  intros H. unfold bytes_decode. now rewrite H.
Qed.

(** ** [rfind] and [suffix] *)

Example suffix_examples :
  suffix ["srv"; "app"; "test.js"] = ".js"%string
  /\ suffix ["archive.tar.gz"] = ".gz"%string
  /\ suffix ["srv"; "app"; "LOAD.JS"] = ".JS"%string
  /\ suffix ["srv"; "app"; ".js"] = EmptyString
  /\ suffix ["notes."] = EmptyString
  /\ suffix ["README"] = EmptyString
  /\ suffix [] = EmptyString.
Proof. repeat split. Qed.

Section Suffix.

Local Open Scope Z_scope.

Lemma rfind_from_absent (c : ascii) (t : string) (i found : Z) :
  has_char c t = false -> rfind_from c t i found = found.
Proof.
  revert i found.
  induction t as [|a t IH]; intros i found H; simpl in *.
  - reflexivity.
  - apply orb_false_iff in H. destruct H as [Ha Ht].
    rewrite Ha. now apply IH.
Qed.

Lemma rfind_from_last (c : ascii) (s t : string) (i found : Z) :
  has_char c t = false ->
  rfind_from c (s ++ String c t) i found = i + Z.of_nat (String.length s).
Proof.
  intros Ht. revert i found.
  induction s as [|a s IH]; intros i found; simpl String.length.
  - simpl. rewrite Ascii.eqb_refl, rfind_from_absent by assumption. lia.
  - change (String a s ++ String c t)%string
      with (String a (s ++ String c t)).
    simpl rfind_from. rewrite IH. lia.
Qed.

Lemma substring_whole (t : string) : substring 0 (String.length t) t = t.
Proof.
  induction t as [|a t IH]; simpl; [reflexivity | now rewrite IH].
Qed.

Lemma substring_after (s t : string) :
  substring (String.length s) (String.length t) (s ++ t) = t.
Proof.
  induction s as [|a s IH]; simpl.
  - apply substring_whole.
  - exact IH.
Qed.

Lemma length_app (s t : string) :
  String.length (s ++ t) = (String.length s + String.length t)%nat.
Proof.
  induction s as [|a s IH]; simpl; [reflexivity | now rewrite IH].
Qed.

(** A name made of a non-empty stem, a dot and a non-empty extension
    without dots has that dot and extension as its suffix. *)
Lemma suffix_stem_ext (p : PosixPath) (stem ext : string) :
  path_name p = (stem ++ String "." ext)%string ->
  stem <> EmptyString -> ext <> EmptyString -> has_char "." ext = false ->
  suffix p = String "." ext.
Proof.
  intros Hname Hstem Hext Hdot.
  unfold suffix. rewrite Hname.
  unfold rfind. rewrite rfind_from_last by assumption.
  rewrite length_app. simpl String.length.
  assert (0 < String.length stem)%nat
    by (destruct stem; [congruence | simpl; lia]).
  assert (0 < String.length ext)%nat
    by (destruct ext; [congruence | simpl; lia]).
  replace (0 <? 0 + Z.of_nat (String.length stem)) with true
    by (symmetry; apply Z.ltb_lt; lia).
  replace (0 + Z.of_nat (String.length stem)
             <? Z.of_nat (String.length stem + S (String.length ext)) - 1)
    with true by (symmetry; apply Z.ltb_lt; lia).
  simpl andb. cbv iota.
  replace (Z.to_nat (0 + Z.of_nat (String.length stem)))
    with (String.length stem) by lia.
  replace (String.length stem + S (String.length ext) - String.length stem)%nat
    with (String.length (String "." ext)) by (simpl; lia).
  apply substring_after.
Qed.

(** A name that is a dot followed by letters, such as [.js], has no suffix:
    its only dot is its first character. *)
Lemma suffix_dotfile (p : PosixPath) (rest : string) :
  path_name p = String "." rest -> has_char "." rest = false ->
  suffix p = EmptyString.
Proof.
  intros Hname Hdot. unfold suffix. rewrite Hname.
  unfold rfind. simpl rfind_from.
  rewrite rfind_from_absent by assumption. reflexivity.
Qed.

End Suffix.

(** ** Validation of the script path *)

Section Validation.

Variable w : World.
Variables (script_file duration : string) (vus : Z).

(** The two early returns leave the list of events as it was. *)
Lemma not_found_returns (p : PosixPath) (tr : Trace) :
  path_resolve w script_file = Ret p ->
  path_exists w p = Ret false ->
  run_k6_script w script_file duration vus tr
  = (Ret ("Error: Script file not found: " ++ script_file)%string, tr).
Proof.
  intros Hres Hex. unfold_run. now rewrite Hres, Hex.
Qed.

Lemma wrong_suffix_returns (p : PosixPath) (tr : Trace) :
  path_resolve w script_file = Ret p ->
  path_exists w p = Ret true ->
  suffix p <> ".js"%string ->
  run_k6_script w script_file duration vus tr
  = (Ret ("Error: Invalid file type. Expected .js file: " ++ script_file)%string,
     tr).
Proof.
  intros Hres Hex Hsuf. unfold_run. rewrite Hres, Hex. simpl.
  destruct (suffix p =? ".js")%string eqn:E.
  - apply String.eqb_eq in E. contradiction.
  - reflexivity.
Qed.

(** Past both checks the run is the launch stage, inside the [try]. *)
Lemma validated_runs_launch (p : PosixPath) (tr : Trace) :
  path_resolve w script_file = Ret p ->
  path_exists w p = Ret true ->
  suffix p = ".js"%string ->
  run_k6_script w script_file duration vus tr
  = try_except_Exception (launch_k6 w p duration vus) unexpected_error tr.
Proof.
  intros Hres Hex Hsuf.
  unfold run_k6_script, try_except_Exception, run_k6_script_try, bind, lift.
  now rewrite Hres, Hex, Hsuf.
Qed.

End Validation.

(** C1. When the resolved path of [script_file] does not exist,
    [run_k6_script] returns the error string that names the script file as
    it was given, and the list of events is the one it started from: no
    launch of a child was reached (nor anything printed). *)
Theorem missing_script_is_reported_without_launch
    (w : World) (script_file duration : string) (vus : Z)
    (p : PosixPath) (tr : Trace) :
  path_resolve w script_file = Ret p ->
  path_exists w p = Ret false ->
  run_k6_script w script_file duration vus tr
  = (Ret ("Error: Script file not found: " ++ script_file)%string, tr).
Proof.
  apply not_found_returns.
Qed.

Lemma missing_script_witness :
  path_resolve (Host.world_of Host.host_ok) "missing.js"
    = Ret ["srv"; "app"; "missing.js"]
  /\ path_exists (Host.world_of Host.host_ok) ["srv"; "app"; "missing.js"]
    = Ret false
  /\ run_k6_script (Host.world_of Host.host_ok) "missing.js" "30s" 10 []
    = (Ret "Error: Script file not found: missing.js", []).
Proof.
  split; [reflexivity | split; [reflexivity |]].
  apply (missing_script_is_reported_without_launch
           (Host.world_of Host.host_ok) "missing.js" "30s" 10
           ["srv"; "app"; "missing.js"] []); reflexivity.
Defined.

(** C2. When the resolved path exists and its suffix is not [.js],
    [run_k6_script] returns the error string for an invalid file type and
    the list of events is unchanged: no launch was reached. *)
Theorem wrong_extension_is_reported_without_launch
    (w : World) (script_file duration : string) (vus : Z)
    (p : PosixPath) (tr : Trace) :
  path_resolve w script_file = Ret p ->
  path_exists w p = Ret true ->
  suffix p <> ".js"%string ->
  run_k6_script w script_file duration vus tr
  = (Ret ("Error: Invalid file type. Expected .js file: " ++ script_file)%string,
     tr).
Proof.
  apply wrong_suffix_returns.
Qed.

Lemma wrong_extension_witness :
  path_resolve (Host.world_of Host.host_ok) "notes.txt"
    = Ret ["srv"; "app"; "notes.txt"]
  /\ path_exists (Host.world_of Host.host_ok) ["srv"; "app"; "notes.txt"]
    = Ret true
  /\ suffix ["srv"; "app"; "notes.txt"] <> ".js"%string
  /\ run_k6_script (Host.world_of Host.host_ok) "notes.txt" "30s" 10 []
    = (Ret "Error: Invalid file type. Expected .js file: notes.txt", []).
Proof.
  split; [reflexivity | split; [reflexivity | split; [discriminate |]]].
  apply (wrong_extension_is_reported_without_launch
           (Host.world_of Host.host_ok) "notes.txt" "30s" 10
           ["srv"; "app"; "notes.txt"] []);
    [reflexivity | reflexivity | discriminate].
Defined.

(** C9. The suffix is compared with [.js] exactly.  An existing path whose
    suffix differs from [.js] only in the case of its letters, for one a
    name that ends in [.JS] after a non-empty stem, is turned down; so is
    a file named just [.js], whose suffix is empty.  In each case the
    invalid-file-type error comes back and no launch is reached. *)
Theorem extension_check_is_exact
    (w : World) (script_file duration : string) (vus : Z)
    (p : PosixPath) (tr : Trace) :
  path_resolve w script_file = Ret p ->
  path_exists w p = Ret true ->
  differs_only_in_case (suffix p) ".js"
  \/ (exists stem, stem <> EmptyString /\ path_name p = (stem ++ ".JS")%string)
  \/ path_name p = ".js"%string ->
  suffix p <> ".js"%string
  /\ (path_name p = ".js"%string -> suffix p = EmptyString)
  /\ run_k6_script w script_file duration vus tr
     = (Ret ("Error: Invalid file type. Expected .js file: "
               ++ script_file)%string, tr).
Proof.
  intros Hres Hex Hcase.
  assert (Hsuf : suffix p <> ".js"%string).
  { destruct Hcase as [[Hne _] | [[stem [Hstem Hname]] | Hname]].
    - exact Hne.
    - rewrite (suffix_stem_ext p stem "JS" Hname Hstem) by easy. discriminate.
    - rewrite (suffix_dotfile p "js" Hname) by reflexivity. discriminate. }
  split; [exact Hsuf | split].
  - intros Hname. now apply (suffix_dotfile p "js").
  - now apply wrong_suffix_returns with (p := p).
Qed.

Lemma extension_check_witness :
  path_resolve (Host.world_of Host.host_ok) "LOAD.JS"
    = Ret ["srv"; "app"; "LOAD.JS"]
  /\ path_exists (Host.world_of Host.host_ok) ["srv"; "app"; "LOAD.JS"]
    = Ret true
  /\ differs_only_in_case (suffix ["srv"; "app"; "LOAD.JS"]) ".js"
  /\ run_k6_script (Host.world_of Host.host_ok) "LOAD.JS" "30s" 10 []
    = (Ret "Error: Invalid file type. Expected .js file: LOAD.JS", []).
Proof.
  assert (Hcase : differs_only_in_case (suffix ["srv"; "app"; "LOAD.JS"]) ".js")
    by (split; [discriminate | reflexivity]).
  split; [reflexivity | split; [reflexivity | split; [exact Hcase |]]].
  apply (extension_check_is_exact
           (Host.world_of Host.host_ok) "LOAD.JS" "30s" 10
           ["srv"; "app"; "LOAD.JS"] [] eq_refl eq_refl (or_introl Hcase)).
Defined.

(** The file named just [.js] on the host is turned down as well. *)
Example dot_js_file_is_rejected :
  run_k6_script (Host.world_of Host.host_ok) ".js" "30s" 10 []
  = (Ret "Error: Invalid file type. Expected .js file: .js", []).
Proof. reflexivity. Qed.

(** ** Which computations launch *)

Lemma launches_app (tr evs : Trace) :
  launches (tr ++ evs) = launches tr ++ launches evs.
Proof.
  induction tr as [|[line | cmd] tr IH]; simpl; [reflexivity | exact IH |].
  now rewrite IH.
Qed.

Lemma quiet_ret {A : Type} (a : A) : quiet (ret a).
Proof. intros tr. reflexivity. Qed.

Lemma quiet_lift {A : Type} (o : Outcome A) : quiet (lift o).
Proof. intros tr. reflexivity. Qed.

Lemma quiet_print (w : World) (line : string) : quiet (print w line).
Proof.
  intros tr. unfold print.
  destruct (stdout_write w line); simpl; [| reflexivity].
  rewrite launches_app. simpl. apply app_nil_r.
Qed.

Lemma quiet_bind {A B : Type} (m : M A) (k : A -> M B) :
  quiet m -> (forall a, quiet (k a)) -> quiet (bind m k).
Proof.
  intros Hm Hk tr. unfold bind.
  specialize (Hm tr). destruct (m tr) as [[a | e] tr']; simpl in *.
  - now rewrite Hk.
  - exact Hm.
Qed.

Lemma quiet_handler (m : M string) :
  quiet m -> quiet (try_except_Exception m unexpected_error).
Proof.
  intros Hm tr. unfold try_except_Exception, unexpected_error, ret.
  specialize (Hm tr). destruct (m tr) as [[s | e] tr']; simpl in *;
    [exact Hm |].
  now destruct (is_Exception (exc_class e)).
Qed.

Create HintDb quiet.
#[local] Hint Resolve quiet_ret quiet_lift quiet_print : quiet.

Ltac quiet_steps :=
  repeat first
    [ apply quiet_bind; [auto with quiet | intros ?]
    | match goal with
      | |- quiet (let '(_, _) := ?x in _) => destruct x
      | |- quiet (if ?c then _ else _) => destruct c
      end
    | solve [auto with quiet] ].

(** Once the child is there, nothing more is launched. *)
Lemma collect_output_quiet (w : World) (process : Process) :
  quiet (collect_output w process).
Proof.
  unfold collect_output. quiet_steps.
Qed.

Lemma spawn_launches (w : World) (cmd : list string) (tr : Trace) :
  launches (snd (spawn w cmd tr)) = launches tr ++ [cmd].
Proof.
  unfold spawn. simpl. apply launches_app.
Qed.

(** ** The launch stage *)

Lemma py_str_ret (max_digits : nat) (n : Z) (t : string) :
  py_str max_digits n = Ret t -> t = str_int n.
Proof.
  unfold py_str. destruct (over_limit max_digits n); congruence.
Qed.

Lemma py_str_raise (max_digits : nat) (n : Z) (e : PyExc) :
  py_str max_digits n = Raise e ->
  over_limit max_digits n = true /\ is_Exception (exc_class e) = true.
Proof.
  unfold py_str. destruct (over_limit max_digits n); [| discriminate].
  intros [= <-]. split; reflexivity.
Qed.

Lemma py_str_renders (w : World) (vus : Z) :
  renders w vus -> py_str (int_max_str_digits w) vus = Ret (str_int vus).
Proof.
  unfold renders, py_str. now intros ->.
Qed.

Lemma launches_printed (tr : Trace) (line : string) :
  launches (tr ++ [Printed line]) = launches tr.
Proof.
  rewrite launches_app. simpl. apply app_nil_r.
Qed.

Section Launch.

Variable w : World.
Variables (p : PosixPath) (duration : string) (vus : Z).

(** Whatever the surroundings answer, the launch stage launches at most
    the command of [build_cmd] on the resolved binary path; if it does,
    the count was converted and the two lines before the launch were
    written. *)
Lemma launch_k6_launches (tr : Trace) :
  exists now,
    launches (snd (launch_k6 w p duration vus tr)) = launches tr ++ now
    /\ (now = []
        \/ exists b,
             path_resolve w (os_getenv w "K6_BIN" "k6") = Ret b
             /\ renders w vus
             /\ stdout_write w ("k6 binary path: " ++ os_getenv w "K6_BIN" "k6")
                = Ret tt
             /\ stdout_write w ("Executing command: "
                                  ++ join " " (build_cmd b duration vus p))
                = Ret tt
             /\ now = [build_cmd b duration vus p]).
Proof.
  unfold launch_k6.
  unfold bind at 1, print at 1.
  destruct (stdout_write w ("k6 binary path: " ++ os_getenv w "K6_BIN" "k6"))
    as [[] | e1] eqn:Hp1; [| exists []; rewrite app_nil_r; auto].
  unfold bind at 1, lift at 1.
  destruct (path_resolve w (os_getenv w "K6_BIN" "k6")) as [b | e2] eqn:Hb;
    [| exists []; simpl; rewrite launches_printed, app_nil_r; auto].
  unfold bind at 1, lift at 1.
  destruct (py_str (int_max_str_digits w) vus) as [t | e3] eqn:Hstr;
    [| exists []; simpl; rewrite launches_printed, app_nil_r; auto].
  assert (Hr : renders w vus).
  { unfold renders. unfold py_str in Hstr.
    destruct (over_limit (int_max_str_digits w) vus);
      [discriminate | reflexivity]. }
  apply py_str_ret in Hstr. subst t.
  change ([path_str b] ++ ["run"] ++ ["-d"; duration]
            ++ ["-u"; str_int vus] ++ [path_str p])
    with (build_cmd b duration vus p).
  unfold bind at 1, print at 1.
  destruct (stdout_write w ("Executing command: "
                              ++ join " " (build_cmd b duration vus p)))
    as [[] | e4] eqn:Hp2;
    [| exists []; simpl; rewrite launches_printed, app_nil_r; auto].
  exists [build_cmd b duration vus p].
  split; [| right; exists b; auto 6].
  unfold bind at 1.
  match goal with
  | |- context [spawn w ?c ?t] =>
    pose proof (spawn_launches w c t) as Q;
    destruct (spawn w c t) as [[process | e] tr']
  end; simpl in Q |- *;
    rewrite ?(collect_output_quiet w process tr'), Q, !launches_printed;
    reflexivity.
Qed.

Variable b : PosixPath.
Hypothesis bin_resolved : path_resolve w (os_getenv w "K6_BIN" "k6") = Ret b.
Hypothesis rendered : renders w vus.
Hypothesis printed1 :
  stdout_write w ("k6 binary path: " ++ os_getenv w "K6_BIN" "k6") = Ret tt.
Hypothesis printed2 :
  stdout_write w ("Executing command: "
                    ++ join " " (build_cmd b duration vus p)) = Ret tt.

(** With the binary resolved, the count converted and the two lines
    written, the stage is the launch of that command followed by
    [collect_output]. *)
Lemma launch_k6_reaches_spawn (tr : Trace) :
  launch_k6 w p duration vus tr
  = bind (spawn w (build_cmd b duration vus p)) (collect_output w)
      (tr ++ [Printed ("k6 binary path: " ++ os_getenv w "K6_BIN" "k6")]
          ++ [Printed ("Executing command: "
                         ++ join " " (build_cmd b duration vus p))]).
Proof.
  unfold launch_k6.
  unfold bind at 1, print at 1. rewrite printed1.
  unfold bind at 1, lift at 1. rewrite bin_resolved.
  unfold bind at 1, lift at 1. rewrite (py_str_renders w vus rendered).
  change ([path_str b] ++ ["run"] ++ ["-d"; duration]
            ++ ["-u"; str_int vus] ++ [path_str p])
    with (build_cmd b duration vus p).
  unfold bind at 1, print at 1. rewrite printed2.
  now rewrite <- app_assoc.
Qed.

Lemma launch_k6_launches_once (tr : Trace) :
  launches (snd (launch_k6 w p duration vus tr))
  = launches tr ++ [build_cmd b duration vus p].
Proof.
  rewrite launch_k6_reaches_spawn. unfold bind at 1.
  match goal with
  | |- context [spawn w ?c ?t] =>
    pose proof (spawn_launches w c t) as Q;
    destruct (spawn w c t) as [[process | e] tr']
  end; simpl in Q |- *;
    rewrite ?(collect_output_quiet w process tr'), Q, !launches_app;
    simpl; now rewrite app_nil_r.
Qed.

(** A child that came back with two well-formed streams, the four lines
    after it written: the exit code picks the result. *)
Lemma launch_k6_completed (proc : Process) (out err : bytes) (tr : Trace) :
  create_subprocess_exec w (build_cmd b duration vus p) = Ret proc ->
  communicate proc = Ret (out, err) ->
  utf8_valid out = true ->
  utf8_valid err = true ->
  stdout_write w (nl ++ "Command output:") = Ret tt ->
  stdout_write w ("Return code: " ++ str_int (returncode proc)) = Ret tt ->
  stdout_write w ("Stdout: " ++ string_of_list_byte out) = Ret tt ->
  stdout_write w ("Stderr: " ++ string_of_list_byte err) = Ret tt ->
  fst (launch_k6 w p duration vus tr)
  = Ret (if negb (returncode proc =? 0)%Z
         then ("Error executing k6 test:" ++ nl ++ string_of_list_byte err)%string
         else string_of_list_byte out).
Proof.
  intros Hspawn Hcomm Hout Herr Hp3 Hp4 Hp5 Hp6.
  rewrite launch_k6_reaches_spawn.
  unfold bind at 1, spawn. rewrite Hspawn.
  unfold collect_output, bind, lift, ret, print, bytes_decode.
  rewrite Hcomm, Hout, Herr, Hp3, Hp4, Hp5, Hp6.
  now destruct (negb (returncode proc =? 0)%Z).
Qed.

End Launch.

(** ** Whole runs *)

Lemma handler_keeps_trace (m : M string) (tr : Trace) :
  snd (try_except_Exception m unexpected_error tr) = snd (m tr).
Proof.
  unfold try_except_Exception, unexpected_error, ret.
  destruct (m tr) as [[s | e] tr']; simpl; [reflexivity |].
  now destruct (is_Exception (exc_class e)).
Qed.

Lemma handler_keeps_return (m : M string) (tr : Trace) (s : string) :
  fst (m tr) = Ret s ->
  fst (try_except_Exception m unexpected_error tr) = Ret s.
Proof.
  unfold try_except_Exception.
  destruct (m tr) as [[s' | e] tr']; simpl; [trivial | discriminate].
Qed.

(** A run launches nothing, or once: then the script passed both checks,
    the binary path resolved, the count was converted, the two lines
    before the launch were written, and the command is [build_cmd] on the
    two resolved paths. *)
Lemma run_launches (w : World) (script_file duration : string) (vus : Z)
    (tr : Trace) :
  exists now,
    launches (snd (run_k6_script w script_file duration vus tr))
    = launches tr ++ now
    /\ (now = []
        \/ exists p b,
             path_resolve w script_file = Ret p
             /\ path_exists w p = Ret true
             /\ suffix p = ".js"%string
             /\ path_resolve w (os_getenv w "K6_BIN" "k6") = Ret b
             /\ renders w vus
             /\ stdout_write w ("k6 binary path: " ++ os_getenv w "K6_BIN" "k6")
                = Ret tt
             /\ stdout_write w ("Executing command: "
                                  ++ join " " (build_cmd b duration vus p))
                = Ret tt
             /\ now = [build_cmd b duration vus p]).
Proof.
  unfold run_k6_script. rewrite handler_keeps_trace.
  unfold run_k6_script_try, bind, lift, ret.
  destruct (path_resolve w script_file) as [p | e] eqn:Hres;
    [| exists []; rewrite app_nil_r; auto].
  destruct (path_exists w p) as [[|] | e] eqn:Hex; simpl;
    try (exists []; rewrite app_nil_r; now auto).
  destruct (suffix p =? ".js")%string eqn:Hsuf; simpl;
    [| exists []; rewrite app_nil_r; auto].
  apply String.eqb_eq in Hsuf.
  destruct (launch_k6_launches w p duration vus tr)
    as [now [Hnow [-> | [b (Hb & Hr & Hp1 & Hp2 & ->)]]]].
  - exists []. auto.
  - exists [build_cmd b duration vus p]. split; [exact Hnow |].
    right. exists p, b. auto 10.
Qed.

(** The decimal form of a count reads back as the count. *)
Lemma str_int_is_decimal (n : Z) : is_decimal_of (str_int n) n.
Proof.
  exists (Z.to_int n). split; [| split].
  - unfold str_int. apply NilZero.isi.
    + destruct n; simpl; try discriminate.
      intros [= H]. now apply (Unsigned.to_uint_nonnil p).
    + destruct n; simpl; try discriminate.
      intros [= H]. now apply (Unsigned.to_uint_nonnil p).
  - rewrite <- (DecimalZ.to_of (Z.to_int n)). now rewrite DecimalZ.of_to.
  - apply DecimalZ.of_to.
Qed.

(** No other text is the decimal numeral of the count. *)
Lemma is_decimal_of_unique (s : string) (n : Z) :
  is_decimal_of s n -> s = str_int n.
Proof.
  intros [d (Hs & Hnorm & Hval)].
  apply NilZero.sis in Hs. subst s n. unfold str_int.
  now rewrite DecimalZ.to_of, Hnorm.
Qed.

(** C5, as amended.  For a script that passed both checks, with the
    binary path resolved and a count that [str] converts: no launch of the
    run carries a command other than, in this order, the resolved binary
    path, [run], [-d], the duration, [-u], the decimal numeral of [vus]
    and the resolved script path.  That numeral is the text that reads
    back, in normal form, as [vus], and no other text does.  When the two
    lines before the launch are written, the run makes exactly one launch,
    with that command. *)
Theorem argument_vector_is_exact
    (w : World) (script_file duration : string) (vus : Z)
    (p b : PosixPath) :
  path_resolve w script_file = Ret p ->
  path_exists w p = Ret true ->
  suffix p = ".js"%string ->
  path_resolve w (os_getenv w "K6_BIN" "k6") = Ret b ->
  renders w vus ->
  (forall cmd,
     In cmd (launches (snd (run_k6_script w script_file duration vus [])))
     -> cmd = [path_str b; "run"; "-d"; duration; "-u"; str_int vus;
               path_str p])
  /\ is_decimal_of (str_int vus) vus
  /\ (forall s, is_decimal_of s vus -> s = str_int vus)
  /\ (stdout_write w ("k6 binary path: " ++ os_getenv w "K6_BIN" "k6")
      = Ret tt ->
      stdout_write w ("Executing command: "
                        ++ join " " [path_str b; "run"; "-d"; duration;
                                     "-u"; str_int vus; path_str p])
      = Ret tt ->
      launches (snd (run_k6_script w script_file duration vus []))
      = [[path_str b; "run"; "-d"; duration; "-u"; str_int vus; path_str p]]).
Proof.
  intros Hres Hex Hjs Hbin Hr.
  split; [| split; [| split]].
  - intros cmd Hin.
    destruct (run_launches w script_file duration vus [])
      as [now [Hnow [-> | [p' [b' (Hres' & _ & _ & Hb' & _ & _ & _ & ->)]]]]];
      rewrite Hnow in Hin; simpl in Hin; [contradiction |].
    destruct Hin as [<- | []].
    rewrite Hres in Hres'. injection Hres' as <-.
    rewrite Hbin in Hb'. injection Hb' as <-.
    reflexivity.
  - apply str_int_is_decimal.
  - intros s. apply is_decimal_of_unique.
  - intros Hp1 Hp2.
    rewrite (validated_runs_launch w script_file duration vus p [])
      by assumption.
    rewrite handler_keeps_trace.
    now rewrite (launch_k6_launches_once w p duration vus b Hbin Hr Hp1 Hp2 []).
Qed.

(** The case of the specification: [/tmp/test.js], one minute, five
    virtual users, on a host where that path resolves to itself. *)
Lemma argument_vector_witness :
  path_resolve (Host.world_of Host.host_ok) "/tmp/test.js"
    = Ret ["tmp"; "test.js"]
  /\ path_resolve (Host.world_of Host.host_ok)
       (os_getenv (Host.world_of Host.host_ok) "K6_BIN" "k6")
     = Ret ["usr"; "bin"; "k6"]
  /\ launches
       (snd (run_k6_script (Host.world_of Host.host_ok)
               "/tmp/test.js" "1m" 5 []))
     = [["/usr/bin/k6"; "run"; "-d"; "1m"; "-u"; "5"; "/tmp/test.js"]].
Proof.
  split; [reflexivity | split; [reflexivity |]].
  apply (proj2 (proj2 (proj2
           (argument_vector_is_exact (Host.world_of Host.host_ok)
              "/tmp/test.js" "1m" 5 ["tmp"; "test.js"] ["usr"; "bin"; "k6"]
              eq_refl eq_refl eq_refl eq_refl eq_refl))));
    reflexivity.
Defined.

(** C5 as it was stated fails for a count of 4301 digits under the
    interpreter's default limit of 4300: the script passes both checks and
    the binary path resolves, but [str(vus)] raises, so no command with
    the decimal form of the count is built and nothing is launched; the
    run returns the unexpected-error string. *)
Lemma argument_vector_counterexample :
  path_resolve (Host.world_of Host.host_ok) "test.js"
    = Ret ["srv"; "app"; "test.js"]
  /\ path_exists (Host.world_of Host.host_ok) ["srv"; "app"; "test.js"]
     = Ret true
  /\ suffix ["srv"; "app"; "test.js"] = ".js"%string
  /\ path_resolve (Host.world_of Host.host_ok)
       (os_getenv (Host.world_of Host.host_ok) "K6_BIN" "k6")
     = Ret ["usr"; "bin"; "k6"]
  /\ int_max_str_digits (Host.world_of Host.host_ok) = 4300
  /\ run_k6_script (Host.world_of Host.host_ok)
       "test.js" "30s" (10 ^ 4300) []
     = (Ret "Unexpected error: Exceeds the limit (4300 digits) for integer string conversion; use sys.set_int_max_str_digits() to increase the limit",
        [Printed "k6 binary path: /usr/bin/k6"]).
Proof.
  do 5 (split; [reflexivity |]). vm_compute. reflexivity.
Qed.

Example argument_vector_tmp_test :
  launches
    (snd (run_k6_script (Host.world_of Host.host_ok) "/tmp/test.js" "1m" 5 []))
  = [["/usr/bin/k6"; "run"; "-d"; "1m"; "-u"; "5"; "/tmp/test.js"]].
Proof. reflexivity. Qed.

(** A negative count is rendered with its sign. *)
Example str_int_examples :
  str_int 5 = "5" /\ str_int 10 = "10" /\ str_int 0 = "0"
  /\ str_int (-3) = "-3".
Proof. repeat split. Qed.

(** ** After the child has exited *)

(** A run that launched [cmd], whose child came back with two well-formed
    streams, the four lines after it written: the exit code picks the
    result. *)
Lemma run_completed (w : World) (script_file duration : string) (vus : Z)
    (cmd : list string) (proc : Process) (out err : bytes) :
  In cmd (launches (snd (run_k6_script w script_file duration vus []))) ->
  create_subprocess_exec w cmd = Ret proc ->
  communicate proc = Ret (out, err) ->
  utf8_valid out = true ->
  utf8_valid err = true ->
  stdout_write w (nl ++ "Command output:") = Ret tt ->
  stdout_write w ("Return code: " ++ str_int (returncode proc)) = Ret tt ->
  stdout_write w ("Stdout: " ++ string_of_list_byte out) = Ret tt ->
  stdout_write w ("Stderr: " ++ string_of_list_byte err) = Ret tt ->
  fst (run_k6_script w script_file duration vus [])
  = Ret (if negb (returncode proc =? 0)%Z
         then ("Error executing k6 test:" ++ nl ++ string_of_list_byte err)%string
         else string_of_list_byte out).
Proof.
  intros Hin Hspawn Hcomm Hout Herr Hp3 Hp4 Hp5 Hp6.
  destruct (run_launches w script_file duration vus [])
    as [now [Hnow [-> | [p [b (Hres & Hex & Hjs & Hb & Hr & Hp1 & Hp2 & ->)]]]]];
    rewrite Hnow in Hin; simpl in Hin; [contradiction |].
  destruct Hin as [<- | []].
  rewrite (validated_runs_launch w script_file duration vus p [])
    by assumption.
  apply handler_keeps_return.
  now apply launch_k6_completed with (b := b).
Qed.

(** C3, as amended.  For a run that launched a child which exited with
    code zero: if both captured streams are well-formed UTF-8 and the four
    diagnostic lines printed after the child (header, exit code, standard
    output, standard error) are written, the run returns the text of the
    child's standard output, nothing added and nothing of its standard
    error. *)
Theorem zero_exit_returns_stdout
    (w : World) (script_file duration : string) (vus : Z)
    (cmd : list string) (proc : Process) (out err : bytes) :
  In cmd (launches (snd (run_k6_script w script_file duration vus []))) ->
  create_subprocess_exec w cmd = Ret proc ->
  communicate proc = Ret (out, err) ->
  returncode proc = 0%Z ->
  utf8_valid out = true ->
  utf8_valid err = true ->
  stdout_write w (nl ++ "Command output:") = Ret tt ->
  stdout_write w "Return code: 0" = Ret tt ->
  stdout_write w ("Stdout: " ++ string_of_list_byte out) = Ret tt ->
  stdout_write w ("Stderr: " ++ string_of_list_byte err) = Ret tt ->
  fst (run_k6_script w script_file duration vus [])
  = Ret (string_of_list_byte out).
Proof.
  intros Hin Hspawn Hcomm Hrc Hout Herr Hp3 Hp4 Hp5 Hp6.
  rewrite (run_completed w script_file duration vus cmd proc out err);
    try assumption; rewrite Hrc; [reflexivity | exact Hp4].
Qed.

Lemma zero_exit_witness :
  In ["/usr/bin/k6"; "run"; "-d"; "30s"; "-u"; "10"; "/srv/app/test.js"]
     (launches
        (snd (run_k6_script (Host.world_of Host.host_ok) "test.js" "30s" 10 [])))
  /\ fst (run_k6_script (Host.world_of Host.host_ok) "test.js" "30s" 10 [])
     = Ret "OK".
Proof.
  split; [left; reflexivity |].
  apply (zero_exit_returns_stdout (Host.world_of Host.host_ok)
           "test.js" "30s" 10
           ["/usr/bin/k6"; "run"; "-d"; "30s"; "-u"; "10"; "/srv/app/test.js"]
           Host.k6_ok Host.ok_bytes []);
    first [reflexivity | left; reflexivity].
Defined.

(** C3 as it was stated fails twice over.  On the first host the child is
    launched, exits with code zero and has written "OK" to its standard
    output, but its standard error is the single byte 0xff: decoding it
    raises and the run returns the unexpected-error string.  On the second
    host both streams are well formed, but the stream behind [print] is
    ASCII and the output holds a check mark: printing the line for it
    raises. *)
Lemma zero_exit_counterexample :
  (path_resolve (Host.world_of Host.host_bad_stderr) "test.js"
     = Ret ["srv"; "app"; "test.js"]
   /\ path_exists (Host.world_of Host.host_bad_stderr)
        ["srv"; "app"; "test.js"] = Ret true
   /\ suffix ["srv"; "app"; "test.js"] = ".js"%string
   /\ launches
        (snd (run_k6_script (Host.world_of Host.host_bad_stderr)
                "test.js" "30s" 10 []))
      = [["/usr/bin/k6"; "run"; "-d"; "30s"; "-u"; "10"; "/srv/app/test.js"]]
   /\ create_subprocess_exec (Host.world_of Host.host_bad_stderr)
        ["/usr/bin/k6"; "run"; "-d"; "30s"; "-u"; "10"; "/srv/app/test.js"]
      = Ret Host.k6_ok_bad_stderr
   /\ communicate Host.k6_ok_bad_stderr
      = Ret (list_byte_of_string "OK", [xff])
   /\ returncode Host.k6_ok_bad_stderr = 0%Z
   /\ fst (run_k6_script (Host.world_of Host.host_bad_stderr)
             "test.js" "30s" 10 [])
      = Ret "Unexpected error: 'utf-8' codec can't decode byte 0xff in position 0: invalid start byte"
   /\ fst (run_k6_script (Host.world_of Host.host_bad_stderr)
             "test.js" "30s" 10 [])
      <> Ret "OK")
  /\ (launches
        (snd (run_k6_script (Host.world_of Host.host_ascii_ok)
                "test.js" "30s" 10 []))
      = [["/usr/bin/k6"; "run"; "-d"; "30s"; "-u"; "10"; "/srv/app/test.js"]]
      /\ create_subprocess_exec (Host.world_of Host.host_ascii_ok)
        ["/usr/bin/k6"; "run"; "-d"; "30s"; "-u"; "10"; "/srv/app/test.js"]
      = Ret Host.k6_ok_check_mark
      /\ communicate Host.k6_ok_check_mark = Ret (Host.check_passed_bytes, [])
      /\ utf8_valid Host.check_passed_bytes = true
      /\ returncode Host.k6_ok_check_mark = 0%Z
      /\ fst (run_k6_script (Host.world_of Host.host_ascii_ok)
                "test.js" "30s" 10 [])
         <> Ret (string_of_list_byte Host.check_passed_bytes)).
Proof.
  repeat split; try reflexivity; vm_compute; discriminate.
Qed.

(** C4, as amended.  For a run that launched a child which exited with a
    code other than zero: if both captured streams are well-formed UTF-8
    and the four diagnostic lines printed after the child are written, the
    run returns ["Error executing k6 test:"], a line feed and the text of
    the child's standard error.  The standard output has no part in the
    value. *)
Theorem nonzero_exit_returns_stderr
    (w : World) (script_file duration : string) (vus : Z)
    (cmd : list string) (proc : Process) (out err : bytes) :
  In cmd (launches (snd (run_k6_script w script_file duration vus []))) ->
  create_subprocess_exec w cmd = Ret proc ->
  communicate proc = Ret (out, err) ->
  returncode proc <> 0%Z ->
  utf8_valid out = true ->
  utf8_valid err = true ->
  stdout_write w (nl ++ "Command output:") = Ret tt ->
  stdout_write w ("Return code: " ++ str_int (returncode proc)) = Ret tt ->
  stdout_write w ("Stdout: " ++ string_of_list_byte out) = Ret tt ->
  stdout_write w ("Stderr: " ++ string_of_list_byte err) = Ret tt ->
  fst (run_k6_script w script_file duration vus [])
  = Ret ("Error executing k6 test:" ++ nl ++ string_of_list_byte err)%string.
Proof.
  intros Hin Hspawn Hcomm Hrc Hout Herr Hp3 Hp4 Hp5 Hp6.
  rewrite (run_completed w script_file duration vus cmd proc out err)
    by assumption.
  apply Z.eqb_neq in Hrc. now rewrite Hrc.
Qed.

Lemma nonzero_exit_witness :
  In ["/usr/bin/k6"; "run"; "-d"; "30s"; "-u"; "10"; "/srv/app/test.js"]
     (launches
        (snd (run_k6_script (Host.world_of Host.host_boom)
                "test.js" "30s" 10 [])))
  /\ fst (run_k6_script (Host.world_of Host.host_boom) "test.js" "30s" 10 [])
     = Ret ("Error executing k6 test:" ++ nl ++ "BOOM")%string.
Proof.
  split; [left; reflexivity |].
  apply (nonzero_exit_returns_stderr (Host.world_of Host.host_boom)
           "test.js" "30s" 10
           ["/usr/bin/k6"; "run"; "-d"; "30s"; "-u"; "10"; "/srv/app/test.js"]
           Host.k6_boom Host.noise_bytes Host.boom_bytes);
    first [reflexivity | left; reflexivity | discriminate].
Defined.

(** C4 as it was stated fails twice over.  On the first host the child is
    launched, exits with code 1 and has written "BOOM" to its standard
    error, but its standard output is the single byte 0xff: decoding it
    raises, and the string returned does not hold "BOOM".  On the second
    host both streams are well formed, but the stream behind [print] is
    ASCII and the standard error holds a check mark: printing the line for
    it raises, and the string returned does not hold the text of the
    standard error. *)
Lemma nonzero_exit_counterexample :
  (path_resolve (Host.world_of Host.host_bad_stdout) "test.js"
     = Ret ["srv"; "app"; "test.js"]
   /\ path_exists (Host.world_of Host.host_bad_stdout)
        ["srv"; "app"; "test.js"] = Ret true
   /\ suffix ["srv"; "app"; "test.js"] = ".js"%string
   /\ launches
        (snd (run_k6_script (Host.world_of Host.host_bad_stdout)
                "test.js" "30s" 10 []))
      = [["/usr/bin/k6"; "run"; "-d"; "30s"; "-u"; "10"; "/srv/app/test.js"]]
   /\ create_subprocess_exec (Host.world_of Host.host_bad_stdout)
        ["/usr/bin/k6"; "run"; "-d"; "30s"; "-u"; "10"; "/srv/app/test.js"]
      = Ret Host.k6_boom_bad_stdout
   /\ communicate Host.k6_boom_bad_stdout
      = Ret ([xff], list_byte_of_string "BOOM")
   /\ returncode Host.k6_boom_bad_stdout = 1%Z
   /\ exists s,
        fst (run_k6_script (Host.world_of Host.host_bad_stdout)
               "test.js" "30s" 10 []) = Ret s
        /\ s = "Unexpected error: 'utf-8' codec can't decode byte 0xff in position 0: invalid start byte"%string
        /\ contains "BOOM" s = false)
  /\ (launches
        (snd (run_k6_script (Host.world_of Host.host_ascii_boom)
                "test.js" "30s" 10 []))
      = [["/usr/bin/k6"; "run"; "-d"; "30s"; "-u"; "10"; "/srv/app/test.js"]]
      /\ create_subprocess_exec (Host.world_of Host.host_ascii_boom)
        ["/usr/bin/k6"; "run"; "-d"; "30s"; "-u"; "10"; "/srv/app/test.js"]
      = Ret Host.k6_boom_check_mark
      /\ communicate Host.k6_boom_check_mark
         = Ret (Host.noise_bytes, Host.check_passed_bytes)
      /\ utf8_valid Host.noise_bytes = true
      /\ utf8_valid Host.check_passed_bytes = true
      /\ returncode Host.k6_boom_check_mark = 1%Z
      /\ exists s,
           fst (run_k6_script (Host.world_of Host.host_ascii_boom)
                  "test.js" "30s" 10 []) = Ret s
           /\ contains (string_of_list_byte Host.check_passed_bytes) s
              = false).
Proof.
  repeat split; try reflexivity; eexists; repeat split; reflexivity.
Qed.

(** ** Directories *)

(** C10, as amended.  [exists()] does not ask what kind of thing is at the
    path.  For an existing directory whose suffix is [.js], both checks
    pass; with the binary path resolved, [str(vus)] formed and the two
    diagnostic lines before the launch written, the run makes one launch,
    whose last argument is that directory. *)
Theorem directory_with_js_suffix_is_launched
    (w : World) (script_file duration : string) (vus : Z)
    (p b : PosixPath) (tr : Trace) :
  path_resolve w script_file = Ret p ->
  stat_kind w p = Ret (Some Directory) ->
  suffix p = ".js"%string ->
  path_resolve w (os_getenv w "K6_BIN" "k6") = Ret b ->
  renders w vus ->
  stdout_write w ("k6 binary path: " ++ os_getenv w "K6_BIN" "k6") = Ret tt ->
  stdout_write w ("Executing command: "
                    ++ join " " [path_str b; "run"; "-d"; duration; "-u";
                                 str_int vus; path_str p]) = Ret tt ->
  path_exists w p = Ret true
  /\ launches (snd (run_k6_script w script_file duration vus tr))
     = launches tr
       ++ [[path_str b; "run"; "-d"; duration; "-u"; str_int vus; path_str p]].
Proof.
  intros Hres Hdir Hjs Hbin Hr Hp1 Hp2.
  assert (Hex : path_exists w p = Ret true)
    by (unfold path_exists; now rewrite Hdir).
  split; [exact Hex |].
  rewrite (validated_runs_launch w script_file duration vus p tr)
    by assumption.
  rewrite handler_keeps_trace.
  now apply launch_k6_launches_once.
Qed.

(** On this host the stream behind [print] is ASCII and the child's
    output is not; the two lines before the launch are ASCII all the
    same, and the directory is launched. *)
Lemma directory_witness :
  stat_kind (Host.world_of Host.host_ascii_ok) ["srv"; "app"; "scenarios.js"]
    = Ret (Some Directory)
  /\ launches
       (snd (run_k6_script (Host.world_of Host.host_ascii_ok)
               "scenarios.js" "30s" 10 []))
     = [["/usr/bin/k6"; "run"; "-d"; "30s"; "-u"; "10";
         "/srv/app/scenarios.js"]].
Proof.
  split; [reflexivity |].
  apply (directory_with_js_suffix_is_launched
           (Host.world_of Host.host_ascii_ok)
           "scenarios.js" "30s" 10
           ["srv"; "app"; "scenarios.js"] ["usr"; "bin"; "k6"] []);
    reflexivity.
Defined.

(** C10 as it was stated fails for a directory whose whole name is [.js]:
    the name ends in [.js], the suffix is empty, and the run stops at the
    second check without a launch. *)
Lemma directory_counterexample :
  path_resolve (Host.world_of Host.host_ok) "suite/.js"
    = Ret ["srv"; "app"; "suite"; ".js"]
  /\ stat_kind (Host.world_of Host.host_ok) ["srv"; "app"; "suite"; ".js"]
     = Ret (Some Directory)
  /\ path_name ["srv"; "app"; "suite"; ".js"] = (EmptyString ++ ".js")%string
  /\ suffix ["srv"; "app"; "suite"; ".js"] = EmptyString
  /\ run_k6_script (Host.world_of Host.host_ok) "suite/.js" "30s" 10 []
     = (Ret "Error: Invalid file type. Expected .js file: suite/.js", []).
Proof.
  repeat split.
Qed.

(** ** Exceptions *)

(** C7, as amended.  A run ends as its [try] block does, but for an
    exception that derives from [Exception], which becomes the string
    ["Unexpected error: "] followed by its text.  So a run returns a
    string or lets through an exception that does not derive from
    [Exception]; none that does ever reaches the caller. *)
Theorem only_non_Exception_propagates
    (w : World) (script_file duration : string) (vus : Z) (tr : Trace) :
  run_k6_script w script_file duration vus tr
  = match run_k6_script_try w script_file duration vus tr with
    | (Ret s, tr') => (Ret s, tr')
    | (Raise e, tr') =>
      if is_Exception (exc_class e)
      then (Ret ("Unexpected error: " ++ exc_str e)%string, tr')
      else (Raise e, tr')
    end
  /\ match fst (run_k6_script w script_file duration vus tr) with
     | Ret _ => True
     | Raise e => is_Exception (exc_class e) = false
     end.
Proof.
  unfold run_k6_script, try_except_Exception, unexpected_error, ret.
  destruct (run_k6_script_try w script_file duration vus tr)
    as [[s | e] tr']; simpl; [split; trivial |].
  destruct (is_Exception (exc_class e)) eqn:He; simpl; split; trivial.
Qed.

(** C7 as it was stated fails when the task is cancelled while it awaits
    the child: [CancelledError] does not derive from [Exception], the
    handler lets it through and the call returns no string. *)
Lemma cancellation_counterexample :
  create_subprocess_exec (Host.world_of Host.host_cancelled)
    ["/usr/bin/k6"; "run"; "-d"; "30s"; "-u"; "10"; "/srv/app/test.js"]
  = Ret Host.k6_cancelled
  /\ communicate Host.k6_cancelled = Raise (mkExc CancelledError EmptyString)
  /\ fst (run_k6_script (Host.world_of Host.host_cancelled)
            "test.js" "30s" 10 [])
     = Raise (mkExc CancelledError EmptyString)
  /\ forall s,
       fst (run_k6_script (Host.world_of Host.host_cancelled)
              "test.js" "30s" 10 []) <> Ret s.
Proof.
  repeat split. intros s. discriminate.
Qed.

(** What the handler makes of a launch that fails and of a stream that
    does not decode. *)
Example failed_launch_is_reported :
  fst (run_k6_script (Host.world_of Host.host_default_bin)
         "test.js" "30s" 10 [])
  = Ret "Unexpected error: [Errno 2] No such file or directory: '/srv/app/k6'".
Proof. reflexivity. Qed.

(** ** The tools *)

(** C6. [execute_k6_test] called with the script path alone is
    [execute_k6_test_with_options] called with ["30s"] and 10, as a
    computation: same result, same events, same exception if any.  Each
    tool is [run_k6_script] on the arguments it was given, the defaults
    filling what the caller of [execute_k6_test] left out. *)
Theorem tools_forward_to_run_k6_script (w : World) (script_file : string) :
  execute_k6_test w script_file None None
  = execute_k6_test_with_options w script_file "30s" 10
  /\ (forall duration vus,
        execute_k6_test w script_file duration vus
        = run_k6_script w script_file
            (with_default "30s" duration) (with_default 10%Z vus))
  /\ (forall duration vus,
        execute_k6_test w script_file (Some duration) (Some vus)
        = run_k6_script w script_file duration vus)
  /\ (forall duration vus,
        execute_k6_test_with_options w script_file duration vus
        = run_k6_script w script_file duration vus).
Proof.
  repeat split.
Qed.

(** ** The default binary *)

(** With [K6_BIN] unset the program name is the bare [k6]; [resolve] reads
    it from the working directory, as it does any relative path. *)
Lemma default_binary_is_resolved_like_a_path
    (w : World) (script_file duration : string) (vus : Z)
    (cmd : list string) :
  environ w "K6_BIN" = None ->
  In cmd (launches (snd (run_k6_script w script_file duration vus []))) ->
  exists b, path_resolve w "k6" = Ret b /\ hd EmptyString cmd = path_str b.
Proof.
  intros Hunset Hin.
  destruct (run_launches w script_file duration vus [])
    as [now [Hnow [-> | [p [b (_ & _ & _ & Hb & _ & _ & _ & ->)]]]]];
    rewrite Hnow in Hin; simpl in Hin; [contradiction |].
  destruct Hin as [<- | []].
  unfold os_getenv in Hb. rewrite Hunset in Hb.
  exists b. now split.
Qed.

(** C8, at a failing input.  On a host with k6 installed as [/usr/bin/k6],
    [/usr/bin] on [PATH], [K6_BIN] unset and [/srv/app] the working
    directory: a search along [PATH] finds [/usr/bin/k6], but the run
    launches [/srv/app/k6], which is not there, and returns the string for
    the [FileNotFoundError]. *)
Theorem default_binary_is_not_searched_on_PATH :
  environ (Host.world_of Host.host_default_bin) "K6_BIN" = None
  /\ Host.which Host.host_default_bin "k6" = Some ["usr"; "bin"; "k6"]
  /\ path_resolve (Host.world_of Host.host_default_bin) "k6"
     = Ret ["srv"; "app"; "k6"]
  /\ run_k6_script (Host.world_of Host.host_default_bin) "test.js" "30s" 10 []
     = (Ret "Unexpected error: [Errno 2] No such file or directory: '/srv/app/k6'",
        [Printed "k6 binary path: k6";
         Printed "Executing command: /srv/app/k6 run -d 30s -u 10 /srv/app/test.js";
         Launch ["/srv/app/k6"; "run"; "-d"; "30s"; "-u"; "10";
                 "/srv/app/test.js"]]).
Proof.
  repeat split.
Qed.

(** Had the bare name been handed to the launch, the host would have found
    the program. *)
Example bare_name_is_searched_by_exec :
  Host.exec Host.host_default_bin ["k6"; "run"] = Ret Host.k6_ok.
Proof. reflexivity. Qed.


(** * Further properties of [k6_server.py] *)

(** ** What a run launches and prints *)

(** X1. Whatever the surroundings answer, one call adds at most one launch
    to those made before it. *)
Theorem run_launches_at_most_once
    (w : World) (script_file duration : string) (vus : Z) (tr : Trace) :
  exists now,
    launches (snd (run_k6_script w script_file duration vus tr))
    = launches tr ++ now
    /\ (List.length now <= 1)%nat.
Proof.
  destruct (run_launches w script_file duration vus tr)
    as [now [Hnow [-> | [p [b (_ & _ & _ & _ & _ & _ & _ & ->)]]]]];
    eexists; (split; [exact Hnow | simpl; lia]).
Qed.

Section AfterValidation.

Variable w : World.
Variables (script_file duration : string) (vus : Z).
Variables (p b : PosixPath).

Hypothesis resolved : path_resolve w script_file = Ret p.
Hypothesis found : path_exists w p = Ret true.
Hypothesis js : suffix p = ".js"%string.

Let line1 : string := ("k6 binary path: " ++ os_getenv w "K6_BIN" "k6")%string.
Let line2 : string :=
  ("Executing command: " ++ join " " (build_cmd b duration vus p))%string.

(** A first diagnostic line that cannot be written ends the run. *)
Lemma first_print_raises (e : PyExc) (tr : Trace) :
  stdout_write w line1 = Raise e ->
  is_Exception (exc_class e) = true ->
  run_k6_script w script_file duration vus tr
  = (Ret ("Unexpected error: " ++ exc_str e)%string, tr).
Proof.
  intros Hw He.
  rewrite (validated_runs_launch w script_file duration vus p tr)
    by assumption.
  unfold try_except_Exception, launch_k6, unexpected_error, bind, ret, print.
  fold line1. now rewrite Hw, He.
Qed.

Hypothesis bin_resolved : path_resolve w (os_getenv w "K6_BIN" "k6") = Ret b.
Hypothesis rendered : renders w vus.
Hypothesis printed1 : stdout_write w line1 = Ret tt.
Hypothesis printed2 : stdout_write w line2 = Ret tt.

(** With the two lines before the launch written, a run is the launch
    and what follows it, inside the [try]. *)
Lemma run_from_spawn (tr : Trace) :
  run_k6_script w script_file duration vus tr
  = try_except_Exception
      (bind (spawn w (build_cmd b duration vus p)) (collect_output w))
      unexpected_error
      (tr ++ [Printed line1; Printed line2]).
Proof.
  rewrite (validated_runs_launch w script_file duration vus p tr)
    by assumption.
  unfold try_except_Exception.
  now rewrite (launch_k6_reaches_spawn w p duration vus b
                 bin_resolved rendered printed1 printed2 tr).
Qed.

Lemma launch_raises (e : PyExc) (tr : Trace) :
  create_subprocess_exec w (build_cmd b duration vus p) = Raise e ->
  is_Exception (exc_class e) = true ->
  run_k6_script w script_file duration vus tr
  = (Ret ("Unexpected error: " ++ exc_str e)%string,
     tr ++ [Printed line1; Printed line2;
            Launch (build_cmd b duration vus p)]).
Proof.
  intros Hspawn He. rewrite run_from_spawn.
  unfold try_except_Exception, unexpected_error, bind, spawn, ret.
  rewrite Hspawn, He. now rewrite <- app_assoc.
Qed.

Variables (proc : Process) (out err : bytes).
Hypothesis launched :
  create_subprocess_exec w (build_cmd b duration vus p) = Ret proc.
Hypothesis communicated : communicate proc = Ret (out, err).

Lemma decode_raises (tr : Trace) :
  utf8_valid out && utf8_valid err = false ->
  run_k6_script w script_file duration vus tr
  = (Ret ("Unexpected error: "
            ++ decode_error_text w (if utf8_valid out then err else out))%string,
     tr ++ [Printed line1; Printed line2;
            Launch (build_cmd b duration vus p)]).
Proof.
  intros Hbad. rewrite run_from_spawn.
  unfold try_except_Exception, unexpected_error, collect_output, bind, spawn,
    ret, lift, bytes_decode.
  rewrite launched, communicated.
  destruct (utf8_valid out); [simpl in Hbad; rewrite Hbad |];
    simpl; now rewrite <- app_assoc.
Qed.

Hypothesis out_utf8 : utf8_valid out = true.
Hypothesis err_utf8 : utf8_valid err = true.

Hypothesis printed3 : stdout_write w (nl ++ "Command output:") = Ret tt.
Hypothesis printed4 :
  stdout_write w ("Return code: " ++ str_int (returncode proc)) = Ret tt.

Lemma stdout_print_raises (e : PyExc) (tr : Trace) :
  stdout_write w ("Stdout: " ++ string_of_list_byte out) = Raise e ->
  is_Exception (exc_class e) = true ->
  run_k6_script w script_file duration vus tr
  = (Ret ("Unexpected error: " ++ exc_str e)%string,
     tr ++ [Printed line1; Printed line2;
            Launch (build_cmd b duration vus p);
            Printed (nl ++ "Command output:");
            Printed ("Return code: " ++ str_int (returncode proc))]).
Proof.
  intros Hw He. rewrite run_from_spawn.
  unfold try_except_Exception, unexpected_error, collect_output, bind, spawn,
    ret, lift, bytes_decode, print.
  rewrite launched, communicated, out_utf8, err_utf8, printed3, printed4,
    Hw, He.
  repeat rewrite <- app_assoc. reflexivity.
Qed.

Hypothesis prints : prints_ok w.

Lemma completed_trace (tr : Trace) :
  run_k6_script w script_file duration vus tr
  = (Ret (if negb (returncode proc =? 0)%Z
          then ("Error executing k6 test:" ++ nl
                  ++ string_of_list_byte err)%string
          else string_of_list_byte out),
     tr ++ [Printed line1; Printed line2;
            Launch (build_cmd b duration vus p);
            Printed (nl ++ "Command output:");
            Printed ("Return code: " ++ str_int (returncode proc));
            Printed ("Stdout: " ++ string_of_list_byte out);
            Printed ("Stderr: " ++ string_of_list_byte err)]).
Proof.
  rewrite run_from_spawn.
  unfold try_except_Exception, unexpected_error, collect_output, bind, spawn,
    ret, lift, bytes_decode, print.
  rewrite launched, communicated, out_utf8, err_utf8, !prints.
  repeat rewrite <- app_assoc. simpl.
  now destruct (negb (returncode proc =? 0)%Z).
Qed.

End AfterValidation.

(** X2. A launch that fails with an exception deriving from [Exception]
    (the program is not there, is not executable, ...) is reported as an
    unexpected error carrying the text of the exception.  The two lines
    before the launch have been printed; nothing is awaited or printed
    after it. *)
Theorem failed_launch_is_an_unexpected_error
    (w : World) (script_file duration : string) (vus : Z)
    (p b : PosixPath) (e : PyExc) (tr : Trace) :
  path_resolve w script_file = Ret p ->
  path_exists w p = Ret true ->
  suffix p = ".js"%string ->
  path_resolve w (os_getenv w "K6_BIN" "k6") = Ret b ->
  renders w vus ->
  prints_ok w ->
  create_subprocess_exec w (build_cmd b duration vus p) = Raise e ->
  is_Exception (exc_class e) = true ->
  run_k6_script w script_file duration vus tr
  = (Ret ("Unexpected error: " ++ exc_str e)%string,
     tr ++ [Printed ("k6 binary path: " ++ os_getenv w "K6_BIN" "k6");
            Printed ("Executing command: "
                       ++ join " " (build_cmd b duration vus p));
            Launch (build_cmd b duration vus p)]).
Proof.
  intros Hres Hex Hjs Hbin Hr Hpr Hspawn He.
  now apply launch_raises.
Qed.

Lemma failed_launch_witness :
  run_k6_script (Host.world_of Host.host_default_bin) "test.js" "30s" 10 []
  = (Ret "Unexpected error: [Errno 2] No such file or directory: '/srv/app/k6'",
     [Printed "k6 binary path: k6";
      Printed "Executing command: /srv/app/k6 run -d 30s -u 10 /srv/app/test.js";
      Launch ["/srv/app/k6"; "run"; "-d"; "30s"; "-u"; "10";
              "/srv/app/test.js"]]).
Proof.
  apply (failed_launch_is_an_unexpected_error
           (Host.world_of Host.host_default_bin) "test.js" "30s" 10
           ["srv"; "app"; "test.js"] ["srv"; "app"; "k6"]
           (mkExc FileNotFoundError
              "[Errno 2] No such file or directory: '/srv/app/k6'") []);
    first [reflexivity | intros line; reflexivity].
Defined.

(** X3. A run whose child came back with two well-formed streams prints
    six diagnostic lines in all, in this order around the launch: the
    binary path as configured, the command line, a header, the exit code,
    the standard output and the standard error.  Its value is the standard
    output for exit code zero and the execution error otherwise. *)
Theorem completed_run_prints_six_lines
    (w : World) (script_file duration : string) (vus : Z)
    (p b : PosixPath) (proc : Process) (out err : bytes) (tr : Trace) :
  path_resolve w script_file = Ret p ->
  path_exists w p = Ret true ->
  suffix p = ".js"%string ->
  path_resolve w (os_getenv w "K6_BIN" "k6") = Ret b ->
  renders w vus ->
  prints_ok w ->
  create_subprocess_exec w (build_cmd b duration vus p) = Ret proc ->
  communicate proc = Ret (out, err) ->
  utf8_valid out = true ->
  utf8_valid err = true ->
  run_k6_script w script_file duration vus tr
  = (Ret (if negb (returncode proc =? 0)%Z
          then ("Error executing k6 test:" ++ nl
                  ++ string_of_list_byte err)%string
          else string_of_list_byte out),
     tr ++ [Printed ("k6 binary path: " ++ os_getenv w "K6_BIN" "k6");
            Printed ("Executing command: "
                       ++ join " " (build_cmd b duration vus p));
            Launch (build_cmd b duration vus p);
            Printed (nl ++ "Command output:");
            Printed ("Return code: " ++ str_int (returncode proc));
            Printed ("Stdout: " ++ string_of_list_byte out);
            Printed ("Stderr: " ++ string_of_list_byte err)]).
Proof.
  intros Hres Hex Hjs Hbin Hr Hpr Hspawn Hcomm Hout Herr.
  now apply completed_trace.
Qed.

Lemma completed_run_witness :
  run_k6_script (Host.world_of Host.host_boom) "test.js" "30s" 10 []
  = (Ret ("Error executing k6 test:" ++ nl ++ "BOOM")%string,
     [Printed "k6 binary path: /usr/bin/k6";
      Printed "Executing command: /usr/bin/k6 run -d 30s -u 10 /srv/app/test.js";
      Launch ["/usr/bin/k6"; "run"; "-d"; "30s"; "-u"; "10";
              "/srv/app/test.js"];
      Printed (nl ++ "Command output:");
      Printed "Return code: 1";
      Printed "Stdout: running...";
      Printed "Stderr: BOOM"]).
Proof.
  apply (completed_run_prints_six_lines (Host.world_of Host.host_boom)
           "test.js" "30s" 10 ["srv"; "app"; "test.js"] ["usr"; "bin"; "k6"]
           Host.k6_boom Host.noise_bytes Host.boom_bytes []);
    first [reflexivity | intros line; reflexivity].
Defined.

(** X4. When a captured stream is not well-formed UTF-8, the run returns
    the unexpected-error string with the text of the decoding error,
    whatever the exit code: for the standard output if that is malformed,
    else for the standard error.  None of the four lines after the launch
    is printed. *)
Theorem undecodable_stream_is_an_unexpected_error
    (w : World) (script_file duration : string) (vus : Z)
    (p b : PosixPath) (proc : Process) (out err : bytes) (tr : Trace) :
  path_resolve w script_file = Ret p ->
  path_exists w p = Ret true ->
  suffix p = ".js"%string ->
  path_resolve w (os_getenv w "K6_BIN" "k6") = Ret b ->
  renders w vus ->
  prints_ok w ->
  create_subprocess_exec w (build_cmd b duration vus p) = Ret proc ->
  communicate proc = Ret (out, err) ->
  utf8_valid out && utf8_valid err = false ->
  run_k6_script w script_file duration vus tr
  = (Ret ("Unexpected error: "
            ++ decode_error_text w (if utf8_valid out then err else out))%string,
     tr ++ [Printed ("k6 binary path: " ++ os_getenv w "K6_BIN" "k6");
            Printed ("Executing command: "
                       ++ join " " (build_cmd b duration vus p));
            Launch (build_cmd b duration vus p)]).
Proof.
  intros Hres Hex Hjs Hbin Hr Hpr Hspawn Hcomm Hbad.
  now apply decode_raises with (proc := proc).
Qed.

Lemma undecodable_stream_witness :
  fst (run_k6_script (Host.world_of Host.host_bad_stderr)
         "test.js" "30s" 10 [])
  = Ret "Unexpected error: 'utf-8' codec can't decode byte 0xff in position 0: invalid start byte".
Proof.
  apply (f_equal fst
           (undecodable_stream_is_an_unexpected_error
              (Host.world_of Host.host_bad_stderr) "test.js" "30s" 10
              ["srv"; "app"; "test.js"] ["usr"; "bin"; "k6"]
              Host.k6_ok_bad_stderr Host.ok_bytes [xff] []
              eq_refl eq_refl eq_refl eq_refl eq_refl
              (fun line => eq_refl) eq_refl eq_refl eq_refl)).
Defined.

(** X5. The diagnostic lines are not best-effort.  If the first of them
    cannot be written, a script that passed both checks is not launched:
    the run returns the unexpected-error string for the failed write and
    leaves no event. *)
Theorem failed_first_print_prevents_launch
    (w : World) (script_file duration : string) (vus : Z)
    (p : PosixPath) (e : PyExc) (tr : Trace) :
  path_resolve w script_file = Ret p ->
  path_exists w p = Ret true ->
  suffix p = ".js"%string ->
  stdout_write w ("k6 binary path: " ++ os_getenv w "K6_BIN" "k6") = Raise e ->
  is_Exception (exc_class e) = true ->
  run_k6_script w script_file duration vus tr
  = (Ret ("Unexpected error: " ++ exc_str e)%string, tr).
Proof.
  intros Hres Hex Hjs Hw He.
  now apply first_print_raises with (p := p).
Qed.

Lemma failed_first_print_witness :
  run_k6_script (with_closed_stdout (Host.world_of Host.host_ok))
    "test.js" "30s" 10 []
  = (Ret "Unexpected error: I/O operation on closed file.", []).
Proof.
  apply (failed_first_print_prevents_launch
           (with_closed_stdout (Host.world_of Host.host_ok))
           "test.js" "30s" 10 ["srv"; "app"; "test.js"]
           (mkExc ValueError "I/O operation on closed file.") []);
    reflexivity.
Defined.

(** X6. If the line that shows the standard output cannot be written (a
    stream that cannot encode it, say), the outcome of a child that has
    run to its end is lost, whatever its exit code: the run returns the
    unexpected-error string for the failed write. *)
Theorem failed_print_after_child_loses_result
    (w : World) (script_file duration : string) (vus : Z)
    (p b : PosixPath) (proc : Process) (out err : bytes)
    (e : PyExc) (tr : Trace) :
  path_resolve w script_file = Ret p ->
  path_exists w p = Ret true ->
  suffix p = ".js"%string ->
  path_resolve w (os_getenv w "K6_BIN" "k6") = Ret b ->
  renders w vus ->
  stdout_write w ("k6 binary path: " ++ os_getenv w "K6_BIN" "k6") = Ret tt ->
  stdout_write w ("Executing command: "
                    ++ join " " (build_cmd b duration vus p)) = Ret tt ->
  create_subprocess_exec w (build_cmd b duration vus p) = Ret proc ->
  communicate proc = Ret (out, err) ->
  utf8_valid out = true ->
  utf8_valid err = true ->
  stdout_write w (nl ++ "Command output:") = Ret tt ->
  stdout_write w ("Return code: " ++ str_int (returncode proc)) = Ret tt ->
  stdout_write w ("Stdout: " ++ string_of_list_byte out) = Raise e ->
  is_Exception (exc_class e) = true ->
  run_k6_script w script_file duration vus tr
  = (Ret ("Unexpected error: " ++ exc_str e)%string,
     tr ++ [Printed ("k6 binary path: " ++ os_getenv w "K6_BIN" "k6");
            Printed ("Executing command: "
                       ++ join " " (build_cmd b duration vus p));
            Launch (build_cmd b duration vus p);
            Printed (nl ++ "Command output:");
            Printed ("Return code: " ++ str_int (returncode proc))]).
Proof.
  intros Hres Hex Hjs Hbin Hr Hp1 Hp2 Hspawn Hcomm Hout Herr Hp3 Hp4 Hw He.
  now apply stdout_print_raises with (out := out) (err := err).
Qed.

Lemma failed_print_after_child_witness :
  returncode Host.k6_ok_check_mark = 0%Z
  /\ fst (run_k6_script (Host.world_of Host.host_ascii_ok)
            "test.js" "30s" 10 [])
     = Ret "Unexpected error: 'ascii' codec can't encode character '\u2713' in position 8: ordinal not in range(128)".
Proof.
  split; [reflexivity |].
  apply (f_equal fst
           (failed_print_after_child_loses_result
              (Host.world_of Host.host_ascii_ok) "test.js" "30s" 10
              ["srv"; "app"; "test.js"] ["usr"; "bin"; "k6"]
              Host.k6_ok_check_mark Host.check_passed_bytes []
              (mkExc UnicodeEncodeError
                 (Host.text_for_check_mark EmptyString)) []
              eq_refl eq_refl eq_refl eq_refl eq_refl eq_refl eq_refl
              eq_refl eq_refl eq_refl eq_refl eq_refl eq_refl eq_refl
              eq_refl)).
Defined.

(** ** The strings a run can return *)

Lemma collect_output_returns (w : World) (proc : Process) (tr : Trace)
    (s : string) :
  fst (collect_output w proc tr) = Ret s ->
  exists out err,
    communicate proc = Ret (out, err)
    /\ utf8_valid out = true
    /\ utf8_valid err = true
    /\ s = (if negb (returncode proc =? 0)%Z
            then ("Error executing k6 test:" ++ nl
                    ++ string_of_list_byte err)%string
            else string_of_list_byte out).
Proof.
  unfold collect_output, bind, lift, bytes_decode, print, ret.
  destruct (communicate proc) as [[out err] | e]; [| discriminate].
  destruct (utf8_valid out) eqn:Hout; [| discriminate].
  destruct (utf8_valid err) eqn:Herr; [| discriminate].
  destruct (stdout_write w (nl ++ "Command output:")); [| discriminate].
  destruct (stdout_write w ("Return code: " ++ str_int (returncode proc)));
    [| discriminate].
  destruct (stdout_write w ("Stdout: " ++ string_of_list_byte out));
    [| discriminate].
  destruct (stdout_write w ("Stderr: " ++ string_of_list_byte err));
    [| discriminate].
  intros H. exists out, err. repeat (split; [easy |]).
  revert H. destruct (negb (returncode proc =? 0)%Z); simpl; congruence.
Qed.

Lemma launch_k6_returns (w : World) (p : PosixPath) (duration : string)
    (vus : Z) (tr : Trace) (s : string) :
  fst (launch_k6 w p duration vus tr) = Ret s ->
  exists b proc tr',
    path_resolve w (os_getenv w "K6_BIN" "k6") = Ret b
    /\ create_subprocess_exec w (build_cmd b duration vus p) = Ret proc
    /\ fst (collect_output w proc tr') = Ret s.
Proof.
  unfold launch_k6.
  unfold bind at 1, print at 1.
  destruct (stdout_write w _); [| discriminate].
  unfold bind at 1, lift at 1.
  destruct (path_resolve w (os_getenv w "K6_BIN" "k6")) as [b | e];
    [| discriminate].
  unfold bind at 1, lift at 1.
  destruct (py_str (int_max_str_digits w) vus) as [t | e] eqn:Hstr;
    [| discriminate].
  apply py_str_ret in Hstr. subst t.
  change ([path_str b] ++ ["run"] ++ ["-d"; duration]
            ++ ["-u"; str_int vus] ++ [path_str p])
    with (build_cmd b duration vus p).
  unfold bind at 1, print at 1.
  destruct (stdout_write w _); [| discriminate].
  unfold bind at 1, spawn at 1.
  destruct (create_subprocess_exec w (build_cmd b duration vus p))
    as [proc | e] eqn:Hspawn; [| discriminate].
  intros H. eauto 6.
Qed.

(** X7. A string returned by [run_k6_script] has one of five shapes: the
    two validation errors, which name the script file as given; the
    unexpected-error string for an exception deriving from [Exception];
    and, for a child that was launched and whose two streams decoded, the
    execution error with its standard error when the exit code is not
    zero, its standard output when it is. *)
Theorem returned_string_has_one_of_five_shapes
    (w : World) (script_file duration : string) (vus : Z) (tr : Trace)
    (s : string) :
  fst (run_k6_script w script_file duration vus tr) = Ret s ->
  s = ("Error: Script file not found: " ++ script_file)%string
  \/ s = ("Error: Invalid file type. Expected .js file: "
            ++ script_file)%string
  \/ (exists e,
        is_Exception (exc_class e) = true
        /\ s = ("Unexpected error: " ++ exc_str e)%string)
  \/ (exists p b proc out err,
        path_resolve w script_file = Ret p
        /\ path_resolve w (os_getenv w "K6_BIN" "k6") = Ret b
        /\ create_subprocess_exec w (build_cmd b duration vus p) = Ret proc
        /\ communicate proc = Ret (out, err)
        /\ utf8_valid out = true
        /\ utf8_valid err = true
        /\ s = (if negb (returncode proc =? 0)%Z
                then ("Error executing k6 test:" ++ nl
                        ++ string_of_list_byte err)%string
                else string_of_list_byte out)).
Proof.
  unfold run_k6_script, try_except_Exception, unexpected_error, ret.
  destruct (run_k6_script_try w script_file duration vus tr)
    as [[s' | e] tr'] eqn:Hbody; simpl.
  - intros [= <-]. apply (f_equal fst) in Hbody. simpl in Hbody.
    revert Hbody. unfold run_k6_script_try, bind, lift, ret.
    destruct (path_resolve w script_file) as [p | e] eqn:Hres;
      [| discriminate].
    destruct (path_exists w p) as [[|] | e]; simpl; try discriminate.
    + destruct (suffix p =? ".js")%string; simpl.
      * intros H. apply launch_k6_returns in H.
        destruct H as (b & proc & tr'' & Hb & Hspawn & H).
        apply collect_output_returns in H.
        destruct H as (out & err & Hcomm & Hout & Herr & ->).
        right; right; right. exists p, b, proc, out, err. auto 8.
      * intros [= <-]. auto.
    + intros [= <-]. auto.
  - destruct (is_Exception (exc_class e)) eqn:He; simpl; [| discriminate].
    intros [= <-]. right; right; left. eauto.
Qed.

Lemma returned_string_witness :
  fst (run_k6_script (Host.world_of Host.host_boom) "test.js" "30s" 10 [])
    = Ret ("Error executing k6 test:" ++ nl ++ "BOOM")%string
  /\ (("Error executing k6 test:" ++ nl ++ "BOOM")%string
        = ("Error: Script file not found: " ++ "test.js")%string
      \/ ("Error executing k6 test:" ++ nl ++ "BOOM")%string
         = ("Error: Invalid file type. Expected .js file: "
              ++ "test.js")%string
      \/ (exists e,
            is_Exception (exc_class e) = true
            /\ ("Error executing k6 test:" ++ nl ++ "BOOM")%string
               = ("Unexpected error: " ++ exc_str e)%string)
      \/ (exists p b proc out err,
            path_resolve (Host.world_of Host.host_boom) "test.js" = Ret p
            /\ path_resolve (Host.world_of Host.host_boom)
                 (os_getenv (Host.world_of Host.host_boom) "K6_BIN" "k6")
               = Ret b
            /\ create_subprocess_exec (Host.world_of Host.host_boom)
                 (build_cmd b "30s" 10 p) = Ret proc
            /\ communicate proc = Ret (out, err)
            /\ utf8_valid out = true
            /\ utf8_valid err = true
            /\ ("Error executing k6 test:" ++ nl ++ "BOOM")%string
               = (if negb (returncode proc =? 0)%Z
                  then ("Error executing k6 test:" ++ nl
                          ++ string_of_list_byte err)%string
                  else string_of_list_byte out))).
Proof.
  split; [reflexivity |].
  apply (returned_string_has_one_of_five_shapes
           (Host.world_of Host.host_boom) "test.js" "30s" 10 []).
  reflexivity.
Defined.

(** ** Failures while the script path is checked *)

(** X8. If resolving the script path raises, or asking whether the
    resolved path exists does, with an exception deriving from
    [Exception], the run returns the unexpected-error string with the text
    of the exception and leaves no event: nothing is printed or
    launched. *)
Theorem failed_check_is_an_unexpected_error
    (w : World) (script_file duration : string) (vus : Z)
    (e : PyExc) (tr : Trace) :
  path_resolve w script_file = Raise e
  \/ (exists p, path_resolve w script_file = Ret p
                /\ path_exists w p = Raise e) ->
  is_Exception (exc_class e) = true ->
  run_k6_script w script_file duration vus tr
  = (Ret ("Unexpected error: " ++ exc_str e)%string, tr).
Proof.
  intros [Hres | [p [Hres Hex]]] He; unfold_run;
    rewrite Hres, ?Hex; simpl; now rewrite He.
Qed.

(** ** The environment *)

Lemma bind_ext {A B : Type} (m : M A) (k1 k2 : A -> M B) (tr : Trace) :
  (forall a tr', k1 a tr' = k2 a tr') -> bind m k1 tr = bind m k2 tr.
Proof.
  intros H. unfold bind. destruct (m tr) as [[a | e] tr']; auto.
Qed.

(** In another environment with the same [K6_BIN], where every launch
    gives what it gave, a run is the same computation. *)
Lemma run_ignores_other_variables
    (w : World) (env : string -> option string)
    (launch : list string -> Outcome Process)
    (script_file duration : string) (vus : Z) (tr : Trace) :
  env "K6_BIN" = environ w "K6_BIN" ->
  (forall cmd, launch cmd = create_subprocess_exec w cmd) ->
  run_k6_script (with_environ w env launch) script_file duration vus tr
  = run_k6_script w script_file duration vus tr.
Proof.
  intros Henv Hlaunch.
  unfold run_k6_script, try_except_Exception.
  replace (run_k6_script_try (with_environ w env launch)
             script_file duration vus tr)
    with (run_k6_script_try w script_file duration vus tr); [reflexivity |].
  unfold run_k6_script_try.
  apply bind_ext. intros p tr1.
  apply bind_ext. intros found tr2.
  destruct (negb found); [reflexivity |].
  destruct (negb (suffix p =? ".js")%string); [reflexivity |].
  unfold launch_k6, os_getenv. cbn [environ with_environ]. rewrite Henv.
  apply bind_ext. intros _ tr3.
  apply bind_ext. intros b tr4.
  apply bind_ext. intros t tr5.
  apply bind_ext. intros _ tr6.
  unfold bind, spawn. cbn [create_subprocess_exec with_environ].
  now rewrite Hlaunch.
Qed.

(** X9. Of the environment the program itself reads [K6_BIN] and nothing
    else; any other variable reaches a run only through the child, which
    inherits the environment.  In a world with another environment that
    has the same [K6_BIN], and in which every launch gives what it gave, a
    call gives the same result and the same events. *)
Theorem run_reads_only_K6_BIN
    (w : World) (env : string -> option string)
    (launch : list string -> Outcome Process)
    (script_file duration : string) (vus : Z) (tr : Trace) :
  env "K6_BIN" = environ w "K6_BIN" ->
  (forall cmd, launch cmd = create_subprocess_exec w cmd) ->
  run_k6_script (with_environ w env launch) script_file duration vus tr
  = run_k6_script w script_file duration vus tr.
Proof.
  apply run_ignores_other_variables.
Qed.

Lemma run_reads_only_K6_BIN_witness :
  run_k6_script
    (with_environ (Host.world_of Host.host_ok)
       (fun name => if (name =? "SELECTED_MODEL")%string then Some "claude-3"
                    else environ (Host.world_of Host.host_ok) name)
       (create_subprocess_exec (Host.world_of Host.host_ok)))
    "test.js" "30s" 10 []
  = run_k6_script (Host.world_of Host.host_ok) "test.js" "30s" 10 [].
Proof.
  apply (run_reads_only_K6_BIN (Host.world_of Host.host_ok)
           (fun name => if (name =? "SELECTED_MODEL")%string
                        then Some "claude-3"
                        else environ (Host.world_of Host.host_ok) name)
           (create_subprocess_exec (Host.world_of Host.host_ok))
           "test.js" "30s" 10 []);
    [reflexivity | intros cmd; reflexivity].
Defined.

(** A child that reads the environment: with [SELECTED_MODEL] set it
    writes the model to its standard output, and the run returns it. *)
Example child_inherits_environment :
  fst (run_k6_script
         (with_environ (Host.world_of Host.host_ok)
            (fun name => if (name =? "SELECTED_MODEL")%string
                         then Some "claude-3"
                         else environ (Host.world_of Host.host_ok) name)
            (fun _ => Ret (mkProcess
                             (Ret (list_byte_of_string "claude-3", [])) 0)))
         "test.js" "30s" 10 [])
  = Ret "claude-3"
  /\ fst (run_k6_script (Host.world_of Host.host_ok) "test.js" "30s" 10 [])
     = Ret "OK".
Proof. split; reflexivity. Qed.

Lemma failed_check_witness :
  run_k6_script (with_nul_check (Host.world_of Host.host_ok))
    (String (ascii_of_nat 0) ".js") "30s" 10 []
  = (Ret "Unexpected error: embedded null byte", []).
Proof.
  apply (failed_check_is_an_unexpected_error
           (with_nul_check (Host.world_of Host.host_ok))
           (String (ascii_of_nat 0) ".js") "30s" 10
           (mkExc ValueError "embedded null byte") []);
    [left; reflexivity | reflexivity].
Defined.

(** ** Names the extension check accepts *)

Lemma substring_split (s : string) (n : nat) :
  (n <= String.length s)%nat ->
  s = (substring 0 n s ++ substring n (String.length s - n) s)%string.
Proof.
  revert s. induction n as [|n IH]; intros s Hn.
  - rewrite Nat.sub_0_r, substring_whole. now destruct s.
  - destruct s as [|a s]; simpl in Hn; [lia |].
    simpl. f_equal. apply IH. lia.
Qed.

(** A suffix that is not empty is the end of the name, after a stem that
    is not empty. *)
Lemma suffix_is_tail (p : PosixPath) :
  suffix p <> EmptyString ->
  exists stem,
    stem <> EmptyString /\ path_name p = (stem ++ suffix p)%string.
Proof.
  unfold suffix.
  set (name := path_name p). set (i := rfind "." name).
  destruct ((0 <? i)%Z && (i <? Z.of_nat (String.length name) - 1)%Z) eqn:E;
    [| congruence].
  intros _. apply andb_true_iff in E. destruct E as [E1 E2].
  apply Z.ltb_lt in E1, E2.
  exists (substring 0 (Z.to_nat i) name). split.
  - destruct name as [|a name']; simpl in E2; [lia |].
    destruct (Z.to_nat i) eqn:Hi; [lia | discriminate].
  - apply substring_split. lia.
Qed.

Lemma js_suffix_iff_stem (p : PosixPath) :
  suffix p = ".js"%string
  <-> exists stem,
        stem <> EmptyString /\ path_name p = (stem ++ ".js")%string.
Proof.
  split.
  - intros H. destruct (suffix_is_tail p) as [stem [Hstem Hname]].
    + rewrite H. discriminate.
    + exists stem. now rewrite <- H.
  - intros [stem [Hstem Hname]].
    now apply (suffix_stem_ext p stem "js").
Qed.

(** X10. The extension check accepts exactly the names made of a stem
    that is not empty followed by [.js].  An existing path with such a
    name is launched, once, when the binary path resolves, [str(vus)]
    does not raise and the diagnostic lines are accepted; an existing path
    with any other name gets the invalid-file-type error and no event. *)
Theorem extension_check_accepts_stem_js_only
    (w : World) (script_file duration : string) (vus : Z)
    (p b : PosixPath) (tr : Trace) :
  path_resolve w script_file = Ret p ->
  path_exists w p = Ret true ->
  ((exists stem,
      stem <> EmptyString /\ path_name p = (stem ++ ".js")%string) ->
   path_resolve w (os_getenv w "K6_BIN" "k6") = Ret b ->
   renders w vus ->
   prints_ok w ->
   launches (snd (run_k6_script w script_file duration vus tr))
   = launches tr ++ [build_cmd b duration vus p])
  /\ (~ (exists stem,
           stem <> EmptyString /\ path_name p = (stem ++ ".js")%string) ->
      run_k6_script w script_file duration vus tr
      = (Ret ("Error: Invalid file type. Expected .js file: "
                ++ script_file)%string, tr)).
Proof.
  intros Hres Hex. split.
  - intros Hstem Hbin Hr Hpr. apply js_suffix_iff_stem in Hstem.
    rewrite (validated_runs_launch w script_file duration vus p tr)
      by assumption.
    rewrite handler_keeps_trace.
    apply launch_k6_launches_once; auto.
  - intros Hnot. apply wrong_suffix_returns with (p := p); try assumption.
    intros Hjs. apply Hnot. now apply js_suffix_iff_stem.
Qed.

Lemma extension_check_accepts_witness :
  launches
    (snd (run_k6_script (Host.world_of Host.host_ok) "test.js" "30s" 10 []))
  = [["/usr/bin/k6"; "run"; "-d"; "30s"; "-u"; "10"; "/srv/app/test.js"]].
Proof.
  apply (proj1 (extension_check_accepts_stem_js_only
                  (Host.world_of Host.host_ok) "test.js" "30s" 10
                  ["srv"; "app"; "test.js"] ["usr"; "bin"; "k6"] []
                  eq_refl eq_refl)).
  - exists "test"%string. split; [discriminate | reflexivity].
  - reflexivity.
  - reflexivity.
  - intros line. reflexivity.
Defined.

(** ** A count too long to convert *)

(** X23. When [vus] has more digits than the interpreter converts,
    [str(vus)] raises inside the [try]: a script that passed both checks
    is not launched, and the run returns the unexpected-error string with
    the interpreter's message.  Only the first diagnostic line has been
    printed. *)
Theorem count_over_the_limit_is_not_launched
    (w : World) (script_file duration : string) (vus : Z)
    (p b : PosixPath) (tr : Trace) :
  path_resolve w script_file = Ret p ->
  path_exists w p = Ret true ->
  suffix p = ".js"%string ->
  stdout_write w ("k6 binary path: " ++ os_getenv w "K6_BIN" "k6") = Ret tt ->
  path_resolve w (os_getenv w "K6_BIN" "k6") = Ret b ->
  over_limit (int_max_str_digits w) vus = true ->
  run_k6_script w script_file duration vus tr
  = (Ret ("Unexpected error: Exceeds the limit ("
            ++ str_int (Z.of_nat (int_max_str_digits w))
            ++ " digits) for integer string conversion; "
            ++ "use sys.set_int_max_str_digits() to increase the limit")%string,
     tr ++ [Printed ("k6 binary path: " ++ os_getenv w "K6_BIN" "k6")]).
Proof.
  intros Hres Hex Hjs Hp1 Hbin Hover.
  rewrite (validated_runs_launch w script_file duration vus p tr)
    by assumption.
  unfold try_except_Exception, launch_k6.
  unfold bind at 1, print at 1. rewrite Hp1.
  unfold bind at 1, lift at 1. rewrite Hbin.
  unfold bind at 1, lift at 1, py_str. rewrite Hover.
  reflexivity.
Qed.

Lemma count_over_the_limit_witness :
  run_k6_script (with_digit_limit (Host.world_of Host.host_ok) 640)
    "test.js" "30s" (10 ^ 640) []
  = (Ret "Unexpected error: Exceeds the limit (640 digits) for integer string conversion; use sys.set_int_max_str_digits() to increase the limit",
     [Printed "k6 binary path: /usr/bin/k6"]).
Proof.
  apply (count_over_the_limit_is_not_launched
           (with_digit_limit (Host.world_of Host.host_ok) 640)
           "test.js" "30s" (10 ^ 640)
           ["srv"; "app"; "test.js"] ["usr"; "bin"; "k6"] []);
    vm_compute; reflexivity.
Defined.

(** * Properties of [main.py] *)

Module MainFacts.
Import Main.

Lemma getitem_In {A : Type} (xs : list A) (i : Z) (x : A) :
  getitem xs i = Some x -> In x xs.
Proof.
  unfold getitem.
  destruct (_ || _)%bool; [discriminate |]. apply nth_error_In.
Qed.

Lemma selection_In (rt : Runtime) (choice chosen : string) :
  selection rt choice = Some chosen -> In chosen MODELS.
Proof.
  unfold selection.
  destruct (truthy choice); [destruct (int_of_str rt choice) |];
    try discriminate; apply getitem_In.
Qed.

(** What [MODELS[n - 1]] is, number by number. *)
Lemma getitem_menu (n : Z) :
  getitem MODELS (n - 1)
  = if ((n <? -2) || (3 <? n))%Z then None
    else nth_error MODELS (Z.to_nat ((n - 1) mod 3)).
Proof.
  unfold getitem. simpl List.length.
  destruct ((n <? -2) || (3 <? n))%Z eqn:E.
  - apply orb_true_iff in E. destruct E as [E | E]; apply Z.ltb_lt in E.
    + replace (n - 1 <? 0)%Z with true by (symmetry; apply Z.ltb_lt; lia).
      replace ((n - 1 + Z.of_nat 3 <? 0) || (Z.of_nat 3 <=? n - 1 + Z.of_nat 3))%Z
        with true; [reflexivity |].
      symmetry. apply orb_true_iff. left. apply Z.ltb_lt. lia.
    + replace (n - 1 <? 0)%Z with false by (symmetry; apply Z.ltb_ge; lia).
      replace ((n - 1 <? 0) || (Z.of_nat 3 <=? n - 1))%Z with true;
        [reflexivity |].
      symmetry. apply orb_true_iff. right. apply Z.leb_le. lia.
  - apply orb_false_iff in E. destruct E as [E1 E2].
    apply Z.ltb_ge in E1, E2.
    assert (Hn : (n = -2 \/ n = -1 \/ n = 0 \/ n = 1 \/ n = 2 \/ n = 3)%Z)
      by lia.
    destruct Hn as [-> | [-> | [-> | [-> | [-> | ->]]]]]; reflexivity.
Qed.

Section Prompt.

Variables (rt : Runtime) (w : World).
Hypothesis prints : prints_ok w.

Lemma say_ok (line : string) (log : Log) :
  say w line log = (Ret tt, log ++ [Say line]).
Proof. unfold say. now rewrite prints. Qed.

(** With every line accepted, the menu is shown, the question asked and
    the answer, if one comes, looked up. *)
Lemma choose_model_asks (log : Log) :
  choose_model rt w log
  = match input rt "Enter the number of the model [1]: " with
    | Ret line =>
      match selection rt (str_strip rt line) with
      | Some chosen => (Ret chosen, log ++ menu)
      | None =>
        (Ret first_model,
         log ++ menu ++ [Say "Invalid choice, defaulting to gpt-4"])
      end
    | Raise e => (Raise e, log ++ menu)
    end.
Proof.
  unfold choose_model, andthen. rewrite say_ok.
  simpl for_each. unfold andthen. rewrite !say_ok.
  unfold ask, done.
  repeat rewrite <- app_assoc. simpl app.
  destruct (input rt _) as [line | e]; [| reflexivity].
  destruct (selection rt (str_strip rt line)); [reflexivity |].
  rewrite say_ok. now rewrite <- app_assoc.
Qed.

End Prompt.

Lemma choose_model_known
    (rt : Runtime) (w : World) (log : Log) (chosen : string) :
  fst (choose_model rt w log) = Ret chosen -> In chosen MODELS.
Proof.
  unfold choose_model, andthen, say. simpl for_each. unfold andthen, say, ask.
  repeat (destruct (stdout_write w _); [| discriminate]).
  destruct (input rt _) as [line | e]; [| discriminate].
  destruct (selection rt (str_strip rt line)) as [m |] eqn:Hsel.
  - intros [= <-]. now apply selection_In in Hsel.
  - unfold andthen. destruct (stdout_write w _); [| discriminate].
    intros [= <-]. simpl. auto.
Qed.

(** X11. Whatever is typed, and whether or not the lines of the menu can
    be written, a model that [choose_model] returns is one of [MODELS]. *)
Theorem choose_model_returns_a_known_model
    (rt : Runtime) (w : World) (log : Log) (chosen : string) :
  fst (choose_model rt w log) = Ret chosen -> In chosen MODELS.
Proof.
  apply choose_model_known.
Qed.

Lemma choose_model_known_witness :
  fst (choose_model (desk None (Ret "0")) (Host.world_of Host.host_ok) [])
    = Ret "claude-3"
  /\ In "claude-3"%string MODELS.
Proof.
  split; [reflexivity |].
  apply (choose_model_returns_a_known_model
           (desk None (Ret "0")) (Host.world_of Host.host_ok) []).
  reflexivity.
Defined.

(** X12. An answer that is empty once stripped selects the first model,
    ["gpt-4"], and is not called invalid. *)
Theorem blank_answer_selects_first_model
    (rt : Runtime) (w : World) (line : string) (log : Log) :
  prints_ok w ->
  input rt "Enter the number of the model [1]: " = Ret line ->
  str_strip rt line = EmptyString ->
  choose_model rt w log = (Ret "gpt-4"%string, log ++ menu).
Proof.
  intros Hpr Hin Hblank.
  rewrite choose_model_asks by assumption.
  rewrite Hin, Hblank. reflexivity.
Qed.

Lemma blank_answer_witness :
  choose_model (desk None (Ret "   ")) (Host.world_of Host.host_ok) []
  = (Ret "gpt-4"%string, menu).
Proof.
  apply (blank_answer_selects_first_model
           (desk None (Ret "   ")) (Host.world_of Host.host_ok) "   " []);
    first [reflexivity | intros line; reflexivity].
Defined.

(** X13. An answer that reads as 1, 2 or 3 selects the model with that
    number in the menu. *)
Theorem menu_number_selects_its_model
    (rt : Runtime) (w : World) (line : string) (n : Z) (log : Log) :
  prints_ok w ->
  input rt "Enter the number of the model [1]: " = Ret line ->
  str_strip rt line <> EmptyString ->
  int_of_str rt (str_strip rt line) = Some n ->
  (1 <= n <= 3)%Z ->
  choose_model rt w log
  = (Ret (nth (Z.to_nat (n - 1)) MODELS EmptyString), log ++ menu)
  /\ In (n, nth (Z.to_nat (n - 1)) MODELS EmptyString) (enumerate 1 MODELS).
Proof.
  intros Hpr Hin Hne Hint Hn.
  rewrite choose_model_asks by assumption.
  rewrite Hin. unfold selection, truthy.
  apply String.eqb_neq in Hne. rewrite Hne, Hint. simpl negb. cbv iota.
  assert (Hcases : (n = 1 \/ n = 2 \/ n = 3)%Z) by lia.
  destruct Hcases as [-> | [-> | ->]]; simpl; auto.
Qed.

Lemma menu_number_witness :
  choose_model (desk None (Ret " 2 ")) (Host.world_of Host.host_ok) []
  = (Ret "gpt-3.5-turbo"%string, menu).
Proof.
  apply (proj1 (menu_number_selects_its_model
                  (desk None (Ret " 2 ")) (Host.world_of Host.host_ok)
                  " 2 " 2 []
                  (fun line => eq_refl) eq_refl
                  ltac:(discriminate) eq_refl ltac:(lia))).
Defined.

(** X14. The numbers 0, -1 and -2 are not turned down: the index
    [int(choice) - 1] is negative and counts from the end of [MODELS], so
    0 selects the last model, -1 the second and -2 the first, and nothing
    is said about an invalid choice. *)
Theorem nonpositive_number_wraps_around
    (rt : Runtime) (w : World) (line : string) (n : Z) (log : Log) :
  prints_ok w ->
  input rt "Enter the number of the model [1]: " = Ret line ->
  str_strip rt line <> EmptyString ->
  int_of_str rt (str_strip rt line) = Some n ->
  (-2 <= n <= 0)%Z ->
  choose_model rt w log
  = (Ret (nth (Z.to_nat (n + 2)) MODELS EmptyString), log ++ menu).
Proof.
  intros Hpr Hin Hne Hint Hn.
  rewrite choose_model_asks by assumption.
  rewrite Hin. unfold selection, truthy.
  apply String.eqb_neq in Hne. rewrite Hne, Hint. simpl negb. cbv iota.
  assert (Hcases : (n = -2 \/ n = -1 \/ n = 0)%Z) by lia.
  destruct Hcases as [-> | [-> | ->]]; reflexivity.
Qed.

Lemma nonpositive_number_witness :
  choose_model (desk None (Ret "0")) (Host.world_of Host.host_ok) []
  = (Ret "claude-3"%string, menu).
Proof.
  apply (nonpositive_number_wraps_around
           (desk None (Ret "0")) (Host.world_of Host.host_ok) "0" 0 []
           (fun line => eq_refl) eq_refl
           ltac:(discriminate) eq_refl ltac:(lia)).
Defined.

(** X15. An answer that is not empty and does not read as a number, or
    reads as one below -2 or above 3, is called invalid and the first
    model is returned. *)
Theorem invalid_answer_defaults_to_first_model
    (rt : Runtime) (w : World) (line : string) (log : Log) :
  prints_ok w ->
  input rt "Enter the number of the model [1]: " = Ret line ->
  str_strip rt line <> EmptyString ->
  int_of_str rt (str_strip rt line) = None
  \/ (exists n, int_of_str rt (str_strip rt line) = Some n
                /\ (n < -2 \/ 3 < n)%Z) ->
  choose_model rt w log
  = (Ret "gpt-4"%string,
     log ++ menu ++ [Say "Invalid choice, defaulting to gpt-4"]).
Proof.
  intros Hpr Hin Hne Hbad.
  rewrite choose_model_asks by assumption.
  rewrite Hin. unfold selection, truthy.
  apply String.eqb_neq in Hne. rewrite Hne. simpl negb. cbv iota.
  destruct Hbad as [-> | [n [-> Hn]]]; [reflexivity |].
  rewrite getitem_menu.
  replace ((n <? -2) || (3 <? n))%Z with true; [reflexivity |].
  symmetry. apply orb_true_iff.
  destruct Hn; [left | right]; apply Z.ltb_lt; lia.
Qed.

Lemma invalid_answer_witness :
  choose_model (desk None (Ret "4")) (Host.world_of Host.host_ok) []
  = (Ret "gpt-4"%string,
     menu ++ [Say "Invalid choice, defaulting to gpt-4"]).
Proof.
  apply (invalid_answer_defaults_to_first_model
           (desk None (Ret "4")) (Host.world_of Host.host_ok) "4" []
           (fun line => eq_refl) eq_refl ltac:(discriminate)).
  right. exists 4%Z. split; [reflexivity | lia].
Defined.

(** ** [main] *)

Lemma calm_done {A : Type} (a : A) : calm (done a).
Proof. intros log. exists []. now rewrite app_nil_r. Qed.

Lemma calm_say (w : World) (line : string) : calm (say w line).
Proof.
  intros log. unfold say. destruct (stdout_write w line).
  - now exists [Say line].
  - exists []. now rewrite app_nil_r.
Qed.

Lemma calm_ask (rt : Runtime) (prompt : string) : calm (ask rt prompt).
Proof. intros log. now exists [Ask prompt]. Qed.

Lemma calm_andthen {A B : Type} (m : P A) (k : A -> P B) :
  calm m -> (forall a, calm (k a)) -> calm (andthen m k).
Proof.
  intros Hm Hk log. unfold andthen.
  destruct (Hm log) as [said [Hsaid Htalk]].
  destruct (m log) as [[a | e] log']; simpl in Hsaid; subst log'.
  - destruct (Hk a (log ++ said)) as [said' [Hsaid' Htalk']].
    exists (said ++ said'). rewrite Hsaid', app_assoc. split; [reflexivity |].
    rewrite forallb_app. now rewrite Htalk, Htalk'.
  - now exists said.
Qed.

Lemma calm_for_each {A : Type} (xs : list A) (body : A -> P unit) :
  (forall x, calm (body x)) -> calm (for_each xs body).
Proof.
  intros Hbody. induction xs as [|x xs IH]; simpl.
  - apply calm_done.
  - apply calm_andthen; [apply Hbody | intros _; exact IH].
Qed.

Lemma calm_choose_model (rt : Runtime) (w : World) :
  calm (choose_model rt w).
Proof.
  unfold choose_model.
  apply calm_andthen; [apply calm_say | intros _].
  apply calm_andthen;
    [apply calm_for_each; intros x; apply calm_say | intros _].
  apply calm_andthen; [apply calm_ask | intros line].
  destruct (selection rt (str_strip rt line)); [apply calm_done |].
  apply calm_andthen; [apply calm_say | intros _; apply calm_done].
Qed.

Lemma In_MODELS_usable (m : string) :
  In m MODELS -> truthy m = true /\ member m MODELS = true.
Proof.
  intros [<- | [<- | [<- | []]]]; split; reflexivity.
Qed.

Lemma env_after_app (env : string -> option string) (log more : Log) :
  env_after env (log ++ more) = env_after (env_after env log) more.
Proof.
  revert env. induction log as [|a log IH]; intros env; [reflexivity |].
  destruct a; simpl; apply IH.
Qed.

Lemma env_after_talk (env : string -> option string) (said : Log) :
  forallb talk said = true -> env_after env said = env.
Proof.
  induction said as [|a said IH]; [reflexivity |].
  simpl. intros H. apply andb_true_iff in H. destruct H as [Ha Hs].
  destruct a; try discriminate; simpl; now apply IH.
Qed.

Lemma talk_has_no_Serve (said : Log) :
  forallb talk said = true -> ~ In Serve said.
Proof.
  intros H Hin. rewrite forallb_forall in H.
  specialize (H Serve Hin). discriminate.
Qed.

Lemma talk_assigns_nothing (said : Log) :
  forallb talk said = true -> assignments said = [].
Proof.
  induction said as [|a said IH]; [reflexivity |].
  simpl. intros H. apply andb_true_iff in H. destruct H as [Ha Hs].
  destruct a; try discriminate; simpl; now apply IH.
Qed.

Lemma assignments_app (log more : Log) :
  assignments (log ++ more) = assignments log ++ assignments more.
Proof.
  induction log as [|a log IH]; [reflexivity |].
  destruct a; simpl; now rewrite ?IH.
Qed.

Lemma finish_log (rt : Runtime) (w : World) (model : string) (log : Log) :
  snd (finish rt w model log) = log ++ [SetEnv "SELECTED_MODEL" model]
  \/ snd (finish rt w model log)
     = log ++ [SetEnv "SELECTED_MODEL" model;
               Say ("Using model: " ++ model); Serve].
Proof.
  unfold finish, andthen, set_env, say, serve.
  destruct (stdout_write w _); simpl; [right | left; reflexivity].
  now rewrite <- !app_assoc.
Qed.

Lemma finish_settled (rt : Runtime) (w : World) (m : string) (said : Log) :
  forallb talk said = true -> In m MODELS ->
  settled (snd (finish rt w m said)).
Proof.
  intros Hsaid Hm. exists said. split; [exact Hsaid |].
  right. exists m. split; [exact Hm |]. apply finish_log.
Qed.

Lemma choose_then_finish_settled (rt : Runtime) (w : World) (said : Log) :
  forallb talk said = true ->
  settled (snd (andthen (choose_model rt w) (finish rt w) said)).
Proof.
  intros Hsaid. unfold andthen.
  destruct (calm_choose_model rt w said) as [more [Hmore Htalk]].
  pose proof (choose_model_known rt w said) as Hknown.
  destruct (choose_model rt w said) as [[m | e] log']; simpl in *;
    subst log'.
  - apply finish_settled; [| now apply Hknown].
    rewrite forallb_app. now rewrite Hsaid, Htalk.
  - exists (said ++ more). split; [| now left].
    rewrite forallb_app. now rewrite Hsaid, Htalk.
Qed.

(** The log of [main] is settled. *)
Lemma main_log (rt : Runtime) (w : World) : settled (snd (main rt w [])).
Proof.
  unfold main. fold (finish rt w).
  unfold andthen at 1.
  destruct (parse_args_model rt) as [a | e]; [| exists []; auto].
  destruct (py_or a (environ w "SELECTED_MODEL")) as [m |].
  - destruct (truthy m) eqn:Ht.
    + destruct (member m MODELS) eqn:Hmem; cbn [andb negb].
      * unfold andthen at 1, done at 1. rewrite Ht. cbn [negb].
        unfold andthen at 1, done at 1.
        apply finish_settled; [reflexivity |].
        unfold member in Hmem. apply existsb_exists in Hmem.
        destruct Hmem as [x [Hx Heq]]. apply String.eqb_eq in Heq.
        now subst x.
      * unfold andthen at 1. unfold andthen at 1.
        destruct (calm_say w ("Invalid model '" ++ m ++ "', defaulting to "
                                ++ first_model) []) as [more [Hmore Htalk]].
        destruct (say w _ []) as [[[] | e] log']; simpl in Hmore; subst log'.
        -- unfold done at 1. cbn [truthy first_model]. 
           change (truthy first_model) with true. cbn [negb].
           unfold andthen at 1, done at 1.
           apply finish_settled; [exact Htalk | simpl; auto].
        -- exists more. auto.
    + cbn [andb]. unfold andthen at 1, done at 1. rewrite Ht. cbn [negb].
      now apply choose_then_finish_settled.
  - unfold andthen at 1, done at 1. now apply choose_then_finish_settled.
Qed.

(** X16. The server is never started with [SELECTED_MODEL] outside
    [MODELS]: whenever [main] reaches [mcp.run], the variable has been
    set to one of the three models, whatever the command line, the
    environment and the answer at the prompt were. *)
Theorem server_starts_with_a_known_model (rt : Runtime) (w : World) :
  In Serve (snd (main rt w [])) ->
  exists m,
    In m MODELS
    /\ env_after (environ w) (snd (main rt w [])) "SELECTED_MODEL" = Some m.
Proof.
  intros Hserve.
  destruct (main_log rt w) as [said [Htalk [H | [m [Hm [H | H]]]]]];
    rewrite H in Hserve |- *.
  - now apply talk_has_no_Serve in Hserve.
  - apply in_app_or in Hserve. destruct Hserve as [Hs | [Hs | []]].
    + now apply talk_has_no_Serve in Hs.
    + discriminate.
  - exists m. split; [exact Hm |].
    rewrite env_after_app, (env_after_talk _ said Htalk). reflexivity.
Qed.

Lemma server_starts_witness :
  In Serve (snd (main (desk None (Ret "0")) (Host.world_of Host.host_ok) []))
  /\ exists m,
       In m MODELS
       /\ env_after (environ (Host.world_of Host.host_ok))
            (snd (main (desk None (Ret "0")) (Host.world_of Host.host_ok) []))
            "SELECTED_MODEL" = Some m.
Proof.
  split; [simpl; tauto |].
  apply (server_starts_with_a_known_model
           (desk None (Ret "0")) (Host.world_of Host.host_ok)).
  simpl; tauto.
Defined.

(** X17. [main] assigns no environment variable but [SELECTED_MODEL], at
    most once, and only one of [MODELS] to it. *)
Theorem main_assigns_only_SELECTED_MODEL (rt : Runtime) (w : World) :
  assignments (snd (main rt w [])) = []
  \/ exists m,
       In m MODELS
       /\ assignments (snd (main rt w [])) = [("SELECTED_MODEL"%string, m)].
Proof.
  destruct (main_log rt w) as [said [Htalk [H | [m [Hm [H | H]]]]]];
    rewrite H, ?assignments_app, (talk_assigns_nothing said Htalk);
    [now left | right; exists m; now split ..].
Qed.

Section Main.

Variables (rt : Runtime) (w : World) (a : option string).
Hypothesis prints : prints_ok w.
Hypothesis parsed : parse_args_model rt = Ret a.

Lemma finish_ok (m : string) (log : Log) :
  finish rt w m log
  = (mcp_run rt,
     log ++ [SetEnv "SELECTED_MODEL" m; Say ("Using model: " ++ m); Serve]).
Proof.
  unfold finish, andthen, set_env, serve. rewrite say_ok by assumption.
  now rewrite <- !app_assoc.
Qed.

(** With a model named, no question is asked. *)
Lemma main_named (m : string) (log : Log) :
  py_or a (environ w "SELECTED_MODEL") = Some m ->
  truthy m = true ->
  main rt w log
  = if member m MODELS
    then (mcp_run rt,
          log ++ [SetEnv "SELECTED_MODEL" m; Say ("Using model: " ++ m);
                  Serve])
    else (mcp_run rt,
          log ++ [Say ("Invalid model '" ++ m ++ "', defaulting to gpt-4");
                  SetEnv "SELECTED_MODEL" "gpt-4";
                  Say "Using model: gpt-4"; Serve]).
Proof.
  intros Hor Ht. unfold main. fold (finish rt w).
  unfold andthen at 1. rewrite parsed, Hor, Ht.
  destruct (member m MODELS); cbn [andb negb].
  - unfold andthen at 1, done at 1. rewrite Ht. cbn [negb].
    unfold andthen at 1, done at 1. apply finish_ok.
  - unfold andthen at 1. unfold andthen at 1.
    rewrite say_ok by assumption. unfold done at 1.
    change (truthy first_model) with true. cbn [negb].
    unfold andthen at 1, done at 1. rewrite finish_ok.
    now rewrite <- app_assoc.
Qed.

(** With none named, the model is the one [choose_model] returns. *)
Lemma main_unnamed (log : Log) :
  named a (environ w "SELECTED_MODEL") = false ->
  main rt w log
  = match choose_model rt w log with
    | (Ret m, log') =>
      (mcp_run rt,
       log' ++ [SetEnv "SELECTED_MODEL" m; Say ("Using model: " ++ m);
                Serve])
    | (Raise e, log') => (Raise e, log')
    end.
Proof.
  unfold named. intros Hnot. unfold main. fold (finish rt w).
  unfold andthen at 1. rewrite parsed.
  destruct (py_or a (environ w "SELECTED_MODEL")) as [m |].
  - rewrite Hnot. cbn [andb].
    unfold andthen at 1, done at 1. rewrite Hnot. cbn [negb].
    unfold andthen.
    destruct (choose_model rt w log) as [[m' | e] log']; [| reflexivity].
    apply finish_ok.
  - unfold andthen at 1, done at 1. unfold andthen.
    destruct (choose_model rt w log) as [[m' | e] log']; [| reflexivity].
    apply finish_ok.
Qed.

End Main.

(** X18. A model of [MODELS] given with [--model] is used whatever the
    environment says; without [--model], one given by [SELECTED_MODEL] is
    used.  Either way nothing is asked: the variable is set, the line
    printed and the server started. *)
Theorem named_model_is_used
    (rt : Runtime) (w : World) (a : option string) (m : string) (log : Log) :
  prints_ok w ->
  parse_args_model rt = Ret a ->
  a = Some m \/ (a = None /\ environ w "SELECTED_MODEL" = Some m) ->
  In m MODELS ->
  main rt w log
  = (mcp_run rt,
     log ++ [SetEnv "SELECTED_MODEL" m; Say ("Using model: " ++ m); Serve]).
Proof.
  intros Hpr Hparse Hgiven Hm.
  destruct (In_MODELS_usable m Hm) as [Ht Hmem].
  rewrite (main_named rt w a Hpr Hparse m log); [now rewrite Hmem | | exact Ht].
  destruct Hgiven as [-> | [-> Henv]]; simpl; [now rewrite Ht | exact Henv].
Qed.

Lemma named_model_witness :
  main (desk (Some "claude-3") (Ret "1")) (Host.world_of Host.host_ok) []
  = (Ret tt,
     [SetEnv "SELECTED_MODEL" "claude-3"; Say "Using model: claude-3"; Serve]).
Proof.
  apply (named_model_is_used
           (desk (Some "claude-3") (Ret "1")) (Host.world_of Host.host_ok)
           (Some "claude-3"%string) "claude-3" []
           (fun line => eq_refl) eq_refl (or_introl eq_refl)).
  simpl; tauto.
Defined.

(** X19. Without [--model], a [SELECTED_MODEL] that is not empty and not
    one of [MODELS] is replaced by ["gpt-4"]: a line says so, and nothing
    is asked. *)
Theorem unknown_SELECTED_MODEL_becomes_gpt4
    (rt : Runtime) (w : World) (v : string) (log : Log) :
  prints_ok w ->
  parse_args_model rt = Ret None ->
  environ w "SELECTED_MODEL" = Some v ->
  v <> EmptyString ->
  member v MODELS = false ->
  main rt w log
  = (mcp_run rt,
     log ++ [Say ("Invalid model '" ++ v ++ "', defaulting to gpt-4");
             SetEnv "SELECTED_MODEL" "gpt-4";
             Say "Using model: gpt-4"; Serve]).
Proof.
  intros Hpr Hparse Henv Hne Hmem.
  assert (Ht : truthy v = true)
    by (unfold truthy; apply String.eqb_neq in Hne; now rewrite Hne).
  rewrite (main_named rt w None Hpr Hparse v log); [now rewrite Hmem | | exact Ht].
  exact Henv.
Qed.

Lemma unknown_SELECTED_MODEL_witness :
  main (desk None (Ret "1"))
    (Host.world_of
       (Host.host_with Host.k6_ok [("SELECTED_MODEL", "gpt-5")] false)) []
  = (Ret tt,
     [Say "Invalid model 'gpt-5', defaulting to gpt-4";
      SetEnv "SELECTED_MODEL" "gpt-4"; Say "Using model: gpt-4"; Serve]).
Proof.
  apply (unknown_SELECTED_MODEL_becomes_gpt4
           (desk None (Ret "1"))
           (Host.world_of
              (Host.host_with Host.k6_ok [("SELECTED_MODEL", "gpt-5")] false))
           "gpt-5" []
           (fun line => eq_refl) eq_refl eq_refl
           ltac:(discriminate) eq_refl).
Defined.

(** X20. With every line accepted and the command line read, [main] asks
    for the model exactly when none was named: no [--model], and
    [SELECTED_MODEL] unset or empty.  It asks once. *)
Theorem main_asks_iff_no_model_named
    (rt : Runtime) (w : World) (a : option string) :
  prints_ok w ->
  parse_args_model rt = Ret a ->
  prompts (snd (main rt w []))
  = if named a (environ w "SELECTED_MODEL") then []
    else ["Enter the number of the model [1]: "%string].
Proof.
  intros Hpr Hparse.
  destruct (named a (environ w "SELECTED_MODEL")) eqn:Hnamed.
  - unfold named in Hnamed.
    destruct (py_or a (environ w "SELECTED_MODEL")) as [m |] eqn:Hor;
      [| discriminate].
    rewrite (main_named rt w a Hpr Hparse m [] Hor Hnamed).
    now destruct (member m MODELS).
  - rewrite (main_unnamed rt w a Hpr Hparse [] Hnamed).
    rewrite choose_model_asks by assumption.
    destruct (input rt _) as [line | e]; [| reflexivity].
    now destruct (selection rt (str_strip rt line)).
Qed.

Lemma main_asks_witness :
  prompts (snd (main (desk None (Ret "2")) (Host.world_of Host.host_ok) []))
  = ["Enter the number of the model [1]: "%string].
Proof.
  apply (main_asks_iff_no_model_named
           (desk None (Ret "2")) (Host.world_of Host.host_ok) None
           (fun line => eq_refl) eq_refl).
Defined.

(** X21. An exception raised by [input] (the end of the input, an
    interrupt) is not caught, whatever its class: [main] ends with it
    after the menu, [SELECTED_MODEL] is not set and the server is not
    started. *)
Theorem failed_input_ends_main
    (rt : Runtime) (w : World) (a : option string) (e : PyExc) (log : Log) :
  prints_ok w ->
  parse_args_model rt = Ret a ->
  named a (environ w "SELECTED_MODEL") = false ->
  input rt "Enter the number of the model [1]: " = Raise e ->
  choose_model rt w log = (Raise e, log ++ menu)
  /\ main rt w log = (Raise e, log ++ menu).
Proof.
  intros Hpr Hparse Hnamed Hin.
  assert (Hc : choose_model rt w log = (Raise e, log ++ menu))
    by (rewrite choose_model_asks by assumption; now rewrite Hin).
  split; [exact Hc |].
  rewrite (main_unnamed rt w a Hpr Hparse log Hnamed). now rewrite Hc.
Qed.

Lemma failed_input_witness :
  main (desk None (Raise (mkExc KeyboardInterrupt EmptyString)))
    (Host.world_of Host.host_ok) []
  = (Raise (mkExc KeyboardInterrupt EmptyString), menu).
Proof.
  apply (proj2 (failed_input_ends_main
                  (desk None (Raise (mkExc KeyboardInterrupt EmptyString)))
                  (Host.world_of Host.host_ok) None
                  (mkExc KeyboardInterrupt EmptyString) []
                  (fun line => eq_refl) eq_refl eq_refl eq_refl)).
Defined.

(** X22. The model [main] chooses reaches [run_k6_script] only through
    the child, which inherits [SELECTED_MODEL]: in the world that [main]
    leaves, with its environment as assigned, a call in which every
    launch gives what it gave before gives the same result and the same
    events as in the world [main] started in. *)
Theorem model_choice_reaches_run_through_child_only
    (rt : Runtime) (w : World) (launch : list string -> Outcome Process)
    (script_file duration : string) (vus : Z) (tr : Trace) :
  (forall cmd, launch cmd = create_subprocess_exec w cmd) ->
  run_k6_script
    (with_environ w (env_after (environ w) (snd (main rt w []))) launch)
    script_file duration vus tr
  = run_k6_script w script_file duration vus tr.
Proof.
  intros Hlaunch.
  apply run_ignores_other_variables; [| exact Hlaunch].
  destruct (main_log rt w) as [said [Htalk [H | [m [Hm [H | H]]]]]];
    rewrite H, ?env_after_app, (env_after_talk _ said Htalk); reflexivity.
Qed.

Lemma model_choice_witness :
  run_k6_script
    (with_environ (Host.world_of Host.host_ok)
       (env_after (environ (Host.world_of Host.host_ok))
          (snd (main (desk None (Ret "3")) (Host.world_of Host.host_ok) [])))
       (create_subprocess_exec (Host.world_of Host.host_ok)))
    "test.js" "30s" 10 []
  = run_k6_script (Host.world_of Host.host_ok) "test.js" "30s" 10 [].
Proof.
  apply (model_choice_reaches_run_through_child_only
           (desk None (Ret "3")) (Host.world_of Host.host_ok)
           (create_subprocess_exec (Host.world_of Host.host_ok))
           "test.js" "30s" 10 []).
  intros cmd. reflexivity.
Defined.

End MainFacts.
